(** * MediTrack AI: the conversation manager and its safety filter

    A shallow embedding of [agent.py] (class [MediTrackAgent]) and of
    [app.py] (the Streamlit script and [handle_chat_input]), and the
    properties of the symptom-intake conversation proved on it.

    Python strings are modelled by [string] with one character per code
    point, for text whose code points are below 256; [str.lower], the
    substring test [in] and [repr] are written out for that range. *)

From Stdlib Require Import String Ascii List Bool Arith Lia.
Import ListNotations.
Open Scope string_scope.

(** ** Python strings *)

Module PyStr.

(** The code points below 256 that [str.lower] changes: A-Z, and the
    Latin-1 capitals U+00C0..U+00DE without the multiplication sign. *)
Definition is_upper (c : ascii) : bool :=
  let n := nat_of_ascii c in
  (((65 <=? n) && (n <=? 90)) || ((192 <=? n) && (n <=? 214))
   || ((216 <=? n) && (n <=? 222)))%nat.

Definition lower_char (c : ascii) : ascii :=
  if is_upper c then ascii_of_nat (nat_of_ascii c + 32) else c.

(** [s.lower()] *)
Fixpoint lower (s : string) : string :=
  match s with
  | EmptyString => EmptyString
  | String c r => String (lower_char c) (lower r)
  end.

(** [s.startswith(k)] *)
Fixpoint startswith (k s : string) : bool :=
  match k, s with
  | EmptyString, _ => true
  | String a k', String b s' => Ascii.eqb a b && startswith k' s'
  | String _ _, EmptyString => false
  end.

(** [k in s]: [k] starts at some position of [s]. *)
Fixpoint contains (k s : string) : bool :=
  startswith k s
  || match s with
     | EmptyString => false
     | String _ r => contains k r
     end.

(** [sep.join(l)] *)
Fixpoint join (sep : string) (l : list string) : string :=
  match l with
  | [] => ""
  | [x] => x
  | x :: r => x ++ sep ++ join sep r
  end.

(** [bool(s)] of a string: the empty string is falsy. *)
Definition truthy (s : string) : bool :=
  match s with EmptyString => false | String _ _ => true end.

Definition nl : string := String (ascii_of_nat 10) "".
Definition squote : ascii := "'"%char.
Definition dquote : ascii := ascii_of_nat 34.
Definition backslash : ascii := "\"%char.

Definition hex_digit (n : nat) : ascii :=
  match get n "0123456789abcdef" with Some c => c | None => "0"%char end.

(** [repr] of a string prints these code points as an escape: the
    control characters, DEL, U+0080..U+00A0 and the soft hyphen. *)
Definition printable (c : ascii) : bool :=
  let n := nat_of_ascii c in
  (((32 <=? n) && (n <? 127)) || ((161 <=? n) && negb (n =? 173)))%nat.

Definition repr_char (quote c : ascii) : string :=
  let n := nat_of_ascii c in
  if Ascii.eqb c quote || Ascii.eqb c backslash then String backslash (String c "")
  else if (n =? 9)%nat then "\t"
  else if (n =? 10)%nat then "\n"
  else if (n =? 13)%nat then "\r"
  else if printable c then String c ""
  else String backslash (String "x" (String (hex_digit (n / 16)) (String (hex_digit (n mod 16)) ""))).

Fixpoint has_char (c : ascii) (s : string) : bool :=
  match s with
  | EmptyString => false
  | String a r => Ascii.eqb a c || has_char c r
  end.

Fixpoint repr_body (quote : ascii) (s : string) : string :=
  match s with
  | EmptyString => ""
  | String c r => repr_char quote c ++ repr_body quote r
  end.

(** [repr(s)]: single quotes, or double quotes when [s] holds a single
    quote and no double quote. *)
Definition repr (s : string) : string :=
  let quote := if has_char squote s && negb (has_char dquote s) then dquote else squote in
  String quote (repr_body quote s ++ String quote "").

(** [repr] of a list whose items print with [f]. *)
Definition repr_list {A} (f : A -> string) (l : list A) : string :=
  "[" ++ join ", " (map f l) ++ "]".

(** [k] occurs in [s]: the meaning of [contains]. *)
Definition Substring (k s : string) : Prop :=
  exists a b, s = a ++ k ++ b.

End PyStr.

(** ** Python dicts with string keys

    A dict keeps its keys in insertion order, and [repr] shows that
    order, so a dict is a list of pairs without repeated keys. *)

Module PyDict.

Definition t (V : Type) : Type := list (string * V).

Definition keys {V} (d : t V) : list string := map fst d.

(** [d.get(k)] *)
Fixpoint get {V} (d : t V) (k : string) : option V :=
  match d with
  | [] => None
  | (k', v) :: r => if String.eqb k' k then Some v else get r k
  end.

(** [k in d] *)
Definition mem {V} (d : t V) (k : string) : bool :=
  match get d k with Some _ => true | None => false end.

(** [d[k] = v]: in place for a key already there, else at the end. *)
Fixpoint set {V} (d : t V) (k : string) (v : V) : t V :=
  match d with
  | [] => [(k, v)]
  | (k', v') :: r =>
      if String.eqb k' k then (k', v) :: r else (k', v') :: set r k v
  end.

Definition repr {V} (f : V -> string) (d : t V) : string :=
  "{" ++ PyStr.join ", " (map (fun kv => PyStr.repr (fst kv) ++ ": " ++ f (snd kv)) d) ++ "}".

End PyDict.

(** ** Session data *)

(** The values of [st.session_state.stage]. *)
Inductive Stage : Type := greeting | collecting_details | summary | done.

Inductive Role : Type := user | assistant.

(** One entry of [st.session_state.messages]. *)
Record message : Type := Message { role : Role; content : string }.

(** One record of [log_data['details'][symptom]]. *)
Record detail : Type := Detail { question : string; answer : string }.

(** [log_data]: the dict with the keys ['initial_symptoms'] and ['details']. *)
Record health_log : Type := HealthLog {
  initial_symptoms : list string;
  details : PyDict.t (list detail)
}.

(** [st.session_state]. The agent's [log_data] and [symptoms_to_query]
    are the very objects stored here (agent.py 33-34 and 67), so each has
    one field. *)
Record session_state : Type := SessionState {
  messages : list message;
  stage : Stage;
  log_data : health_log;
  symptoms_to_query : list (string * string);
  user_input : option string
}.

(** What the page shows: the Streamlit element, and the chat bubble it
    is drawn in, if any. *)
Inductive element : Type :=
  st_markdown | st_error | st_info | st_success.

Record drawn : Type := Drawn { bubble : option Role; elem : element; body : string }.

(** The state a turn runs on: the session store, the instance field of
    the agent outside it, the prompts handed to the model so far (oldest
    first) and the page. *)
Record world : Type := World {
  session : session_state;
  current_question_context : option (string * string);
  prompts : list string;
  page : list drawn
}.

(** Python exceptions that the modelled statements can raise. *)
Inductive exn : Type :=
| KeyError (key : string)
| IndexError
| ApiError (msg : string).

Definition str_of_exn (e : exn) : string :=
  match e with
  | KeyError k => PyStr.repr k
  | IndexError => "pop from empty list"
  | ApiError m => m
  end.

(** ** Statements: state passing with exceptions *)

Definition M (A : Type) : Type := world -> (exn + A) * world.

Definition ret {A} (a : A) : M A := fun w => (inr a, w).

Definition raise {A} (e : exn) : M A := fun w => (inl e, w).

Definition bind {A B} (m : M A) (k : A -> M B) : M B :=
  fun w => match m w with
           | (inr a, w') => k a w'
           | (inl e, w') => (inl e, w')
           end.

(** [try: body except Exception as e: handler] *)
Definition try_except {A} (body : M A) (handler : exn -> M A) : M A :=
  fun w => match body w with
           | (inl e, w') => handler e w'
           | r => r
           end.

Declare Scope py_scope.
Delimit Scope py_scope with py.
Notation "x <- m ;; k" := (bind m (fun x => k))
  (at level 61, m at next level, right associativity) : py_scope.
Notation "m ;; k" := (bind m (fun _ => k))
  (at level 61, right associativity) : py_scope.
Open Scope py_scope.

Definition gets {A} (f : world -> A) : M A := fun w => (inr (f w), w).

Definition modify (f : world -> world) : M unit := fun w => (inr tt, f w).

Definition with_session (f : session_state -> session_state) (w : world) : world :=
  World (f (session w)) (current_question_context w) (prompts w) (page w).

Definition set_messages (l : list message) (s : session_state) : session_state :=
  SessionState l (stage s) (log_data s) (symptoms_to_query s) (user_input s).

Definition set_stage (x : Stage) (s : session_state) : session_state :=
  SessionState (messages s) x (log_data s) (symptoms_to_query s) (user_input s).

Definition set_log_data (l : health_log) (s : session_state) : session_state :=
  SessionState (messages s) (stage s) l (symptoms_to_query s) (user_input s).

Definition set_symptoms_to_query (q : list (string * string)) (s : session_state) : session_state :=
  SessionState (messages s) (stage s) (log_data s) q (user_input s).

Definition set_user_input (u : option string) (s : session_state) : session_state :=
  SessionState (messages s) (stage s) (log_data s) (symptoms_to_query s) u.

Definition set_context (c : option (string * string)) (w : world) : world :=
  World (session w) c (prompts w) (page w).

Definition set_page (p : list drawn) (w : world) : world :=
  World (session w) (current_question_context w) (prompts w) p.

(** [st.session_state.messages.append({'role': r, 'content': c})] *)
Definition append_message (r : Role) (c : string) : M unit :=
  modify (with_session (fun s => set_messages (messages s ++ [Message r c]) s)).

(** [st.session_state.stage = x] *)
Definition assign_stage (x : Stage) : M unit :=
  modify (with_session (set_stage x)).

(** Drawing [e] with text [c], inside [with st.chat_message(r)] or not. *)
Definition draw (b : option Role) (e : element) (c : string) : M unit :=
  modify (fun w => set_page (page w ++ [Drawn b e c]) w).

(** ** The Gemini model, seen from the agent

    [model.generate_content(prompt)] either raises or returns a response
    object. [hasattr(response, 'text')] reads the attribute: it is absent
    (the read raises AttributeError), or the read raises another
    exception, which [hasattr] lets through, or it yields the text. *)

Inductive text_attr : Type :=
| NoText
| TextRaises (msg : string)
| Text (t : string).

Inductive reply : Type :=
| Raises (msg : string)
| Response (text : text_attr).

(** ** agent.py: class MediTrackAgent *)

(** A Python set, in the order it is written; [any] over it does not
    depend on the order (see [check_for_critical_symptoms_true]). *)
Definition CRITICAL_SYMPTOMS : list string :=
  [ "chest pain"; "difficulty breathing"; "trouble breathing"; "can't breathe";
    "severe pain"; "slurred speech"; "numbness"; "face drooping";
    "unconscious"; "loss of consciousness"; "severe bleeding"; "uncontrolled bleeding" ].

(** A dict: its keys are iterated in the order they are written. *)
Definition SYMPTOM_QUESTIONS : PyDict.t (list string) :=
  [ ("headache", ["On a scale of 1 to 10, how severe is it?"; "Where is the pain located?"]);
    ("fever", ["Have you measured your temperature? If so, what is it?"; "How long have you felt feverish?"]);
    ("cough", ["Is it a dry cough, or are you coughing anything up?"; "How frequently are you coughing?"]) ].

(** [any(keyword in text.lower() for keyword in self.CRITICAL_SYMPTOMS)] *)
Definition check_for_critical_symptoms (text : string) : bool :=
  existsb (fun keyword => PyStr.contains keyword (PyStr.lower text)) CRITICAL_SYMPTOMS.

Definition get_critical_symptom_response : string :=
  "**This sounds potentially serious.** Based on your description, "
  ++ "it is highly recommended that you **contact a medical professional or emergency services immediately.** "
  ++ "This chat will now end to ensure your safety.".

(** [[s for s in self.SYMPTOM_QUESTIONS if s in text.lower()]] *)
Definition detect (text : string) : list string :=
  filter (fun s => PyStr.contains s (PyStr.lower text)) (PyDict.keys SYMPTOM_QUESTIONS).

(** [d[k]], which raises KeyError on a missing key. *)
Definition getitem {V} (d : PyDict.t V) (k : string) : M V :=
  match PyDict.get d k with
  | Some v => ret v
  | None => raise (KeyError k)
  end.

(** [[(s, q) for s in detected for q in self.SYMPTOM_QUESTIONS[s]]] *)
Fixpoint question_queue (detected : list string) : M (list (string * string)) :=
  match detected with
  | [] => ret []
  | s :: r =>
      qs <- getitem SYMPTOM_QUESTIONS s ;;
      rest <- question_queue r ;;
      ret (map (pair s) qs ++ rest)%list
  end.

Definition log_initial_symptoms (text : string) : M unit :=
  let detected := detect text in
  modify (with_session (fun s =>
    set_log_data (HealthLog detected (details (log_data s))) s)) ;;
  queue <- question_queue detected ;;
  modify (with_session (set_symptoms_to_query queue)).

(** [self.symptoms_to_query.pop(0)] *)
Definition pop_first : M (string * string) :=
  queue <- gets (fun w => symptoms_to_query (session w)) ;;
  match queue with
  | [] => raise IndexError
  | x :: r => modify (with_session (set_symptoms_to_query r)) ;; ret x
  end.

Definition ask_next_question : M (option string) :=
  queue <- gets (fun w => symptoms_to_query (session w)) ;;
  match queue with
  | _ :: _ =>
      sq <- pop_first ;;
      modify (set_context (Some sq)) ;;
      ret (Some (snd sq))
  | [] => ret None
  end.

Definition set_details (d : PyDict.t (list detail)) : M unit :=
  modify (with_session (fun s =>
    set_log_data (HealthLog (initial_symptoms (log_data s)) d) s)).

Definition log_detail (answer : string) : M unit :=
  ctx <- gets current_question_context ;;
  match ctx with
  | Some (symptom, question) =>
      d <- gets (fun w => details (log_data (session w))) ;;
      (if PyDict.mem d symptom then ret tt else set_details (PyDict.set d symptom [])) ;;
      d <- gets (fun w => details (log_data (session w))) ;;
      records <- getitem d symptom ;;
      set_details (PyDict.set d symptom (records ++ [Detail question answer])%list)
  | None => ret tt
  end.

Definition no_text_fallback : string :=
  "The model could not generate a response for this query.".

Definition error_fallback : string :=
  "An error occurred while trying to generate a response.".

Definition indent : string := "        ".

Definition repr_detail (r : detail) : string :=
  "{'question': " ++ PyStr.repr (question r) ++ ", 'answer': " ++ PyStr.repr (answer r) ++ "}".

(** [str(self.log_data)] *)
Definition repr_log_data (l : health_log) : string :=
  "{'initial_symptoms': " ++ PyStr.repr_list PyStr.repr (initial_symptoms l)
  ++ ", 'details': " ++ PyDict.repr (PyStr.repr_list repr_detail) (details l) ++ "}".

Definition summary_prompt (l : health_log) : string :=
  PyStr.nl
  ++ indent ++ "Please summarize the following health log in a clean, easy-to-read markdown format." ++ PyStr.nl
  ++ indent ++ "Use bullet points. Do not add any information not present in the log." ++ PyStr.nl
  ++ indent ++ "Absolutely do not provide a medical diagnosis or any form of medical opinion." ++ PyStr.nl
  ++ PyStr.nl
  ++ indent ++ "Health Log Data:" ++ PyStr.nl
  ++ indent ++ repr_log_data l ++ PyStr.nl
  ++ indent.

Definition advice_prompt (l : health_log) : string :=
  PyStr.nl
  ++ indent ++ "Based on the following symptoms, provide some general, safe, non-prescriptive wellness advice." ++ PyStr.nl
  ++ indent ++ "Focus only on common sense actions like rest, hydration, and monitoring symptoms." ++ PyStr.nl
  ++ indent ++ "Explicitly state that this is not medical advice and a doctor should be consulted for medical issues." ++ PyStr.nl
  ++ indent ++ "NEVER provide a diagnosis or recommend specific medication." ++ PyStr.nl
  ++ PyStr.nl
  ++ indent ++ "Symptoms: " ++ PyStr.repr_list PyStr.repr (initial_symptoms l) ++ PyStr.nl
  ++ indent.

Section Agent.

(** The model: its answer to a prompt, given the prompts it was sent
    before. *)
Variable gemini : list string -> string -> reply.

(** [self.model.generate_content(prompt)] *)
Definition generate_content (prompt : string) : M text_attr :=
  fun w =>
    let w' := World (session w) (current_question_context w)
                    (prompts w ++ [prompt]) (page w) in
    match gemini (prompts w) prompt with
    | Raises msg => (inl (ApiError msg), w')
    | Response text => (inr text, w')
    end.

Definition _call_gemini (prompt : string) : M string :=
  try_except
    (response <- generate_content prompt ;;
     match response with
     | Text t => ret t
     | NoText => ret no_text_fallback
     | TextRaises msg => raise (ApiError msg)
     end)
    (fun e =>
       draw None st_error ("Error communicating with Gemini API: " ++ str_of_exn e) ;;
       ret error_fallback).

Definition generate_summary : M string :=
  l <- gets (fun w => log_data (session w)) ;;
  _call_gemini (summary_prompt l).

Definition generate_advice : M string :=
  l <- gets (fun w => log_data (session w)) ;;
  _call_gemini (advice_prompt l).

End Agent.

(** ** app.py *)

Definition greeting_text : string :=
  "Hi! I'm MediTrack AI. Let's log your health symptoms. How are you feeling today?".

Definition clarification_prompt : string :=
  "I see. Could you please tell me more? Mention specific symptoms like 'headache', 'fever', etc., so I can ask relevant follow-up questions.".

Definition summary_header : string := "### Your Health Log Summary".

Definition advice_header : string := "### General Wellness Advice".

Definition closing_message : string :=
  "Your session is complete. You can copy the summary above for your records. Stay well!".

Definition concluded_message : string :=
  "This session has concluded. To start a new health log, please click the button below.".

(** [not response], for a response that is None or a string. *)
Definition falsy (response : option string) : bool :=
  match response with
  | None => true
  | Some r => negb (PyStr.truthy r)
  end.

(** The session store after the first run of the script on an empty
    store (agent.py 27-30, app.py 30-38). *)
Definition new_session : session_state :=
  SessionState [Message assistant greeting_text] greeting (HealthLog [] []) [] None.

(** What a rerun of the script is started by. *)
Inductive interaction : Type :=
| chat_input (prompt : string)
| start_new_log
| idle.

Section App.

Variable gemini : list string -> string -> reply.

Definition handle_chat_input : M unit :=
  user_input <- gets (fun w => user_input (session w)) ;;
  match user_input with
  | None => ret tt
  | Some user_input =>
    if negb (PyStr.truthy user_input) then ret tt
    else if check_for_critical_symptoms user_input then
      let critical_message := get_critical_symptom_response in
      draw (Some assistant) st_error critical_message ;;
      append_message assistant critical_message ;;
      assign_stage done
    else
      current_stage <- gets (fun w => stage (session w)) ;;
      response <-
        match current_stage with
        | greeting =>
            log_initial_symptoms user_input ;;
            response <- ask_next_question ;;
            if falsy response then ret (Some clarification_prompt)
            else assign_stage collecting_details ;; ret response
        | collecting_details =>
            log_detail user_input ;;
            response <- ask_next_question ;;
            if falsy response then
              assign_stage summary ;;
              summary <- generate_summary gemini ;;
              advice <- generate_advice gemini ;;
              draw (Some assistant) st_markdown summary_header ;;
              draw (Some assistant) st_info summary ;;
              append_message assistant (summary_header ++ PyStr.nl ++ summary) ;;
              draw (Some assistant) st_markdown advice_header ;;
              draw (Some assistant) st_success advice ;;
              append_message assistant (advice_header ++ PyStr.nl ++ advice) ;;
              assign_stage done ;;
              ret (Some closing_message)
            else ret response
        | done => ret (Some concluded_message)
        | summary => ret (Some "")
        end ;;
      if falsy response then ret tt
      else
        let response := match response with Some r => r | None => "" end in
        draw (Some assistant) st_markdown response ;;
        append_message assistant response
  end.

(** [for message in st.session_state.messages: ...] *)
Fixpoint display_history (l : list message) : M unit :=
  match l with
  | [] => ret tt
  | m :: r => draw (Some (role m)) st_markdown (content m) ;; display_history r
  end.

(** One run of the script, top to bottom. The agent is built anew in
    every run (app.py 24), which sets its [current_question_context]
    to None (agent.py 47); the API key is taken to be configured, so
    that the agent is built, and the title and the disclaimer of the
    page are left out. *)
Definition script_run (i : interaction) : M unit :=
  modify (set_page []) ;;
  modify (set_context None) ;;
  history <- gets (fun w => messages (session w)) ;;
  display_history history ;;
  current <- gets (fun w => stage (session w)) ;;
  match current, i with
  | done, _ => ret tt
  | _, chat_input prompt =>
      if PyStr.truthy prompt then
        modify (with_session (set_user_input (Some prompt))) ;;
        draw (Some user) st_markdown prompt ;;
        append_message user prompt ;;
        handle_chat_input
      else ret tt
  | _, _ => ret tt
  end ;;
  match i with
  | start_new_log =>
      modify (fun w => World new_session None (prompts w)
                             [Drawn (Some assistant) st_markdown greeting_text])
  | _ => ret tt
  end.

(** A conversation: one run of the script per interaction. *)
Fixpoint script_runs (l : list interaction) : M unit :=
  match l with
  | [] => ret tt
  | i :: r => script_run i ;; script_runs r
  end.

End App.

(** The world a new conversation starts from. *)
Definition new_world : world :=
  World new_session None [] [Drawn (Some assistant) st_markdown greeting_text].

(** The state a statement leaves, and whether it raised. *)
Definition state_after {A} (m : M A) (w : world) : world := snd (m w).

Definition raised {A} (m : M A) (w : world) : option exn :=
  match fst (m w) with inl e => Some e | inr _ => None end.

Definition value_of {A} (m : M A) (w : world) : option A :=
  match fst (m w) with inl _ => None | inr a => Some a end.

(** ** Vocabulary of the statements below *)

(** The follow-up questions the catalog declares for a key. *)
Definition questions_of (s : string) : list string :=
  match PyDict.get SYMPTOM_QUESTIONS s with Some qs => qs | None => [] end.

(** The questions of the symptoms of [detected], symptom by symptom,
    each symptom's questions in the order the catalog declares them. *)
Definition flatten_questions (detected : list string) : list (string * string) :=
  flat_map (fun s => map (pair s) (questions_of s)) detected.

(** The records a dict of details holds for a symptom. *)
Definition records_of (d : PyDict.t (list detail)) (symptom : string) : list detail :=
  match PyDict.get d symptom with Some l => l | None => [] end.

(** A reply of the model that is a failure: an exception, or a response
    whose text cannot be read. *)
Definition failed (r : reply) : bool :=
  match r with
  | Response (Text _) => false
  | _ => true
  end.

(** The text the advisor yields for a reply of the model. *)
Definition advisor_text (r : reply) : string :=
  match r with
  | Raises _ => error_fallback
  | Response (TextRaises _) => error_fallback
  | Response NoText => no_text_fallback
  | Response (Text t) => t
  end.

(** The diagnostics [_call_gemini] draws for a reply of the model. *)
Definition advisor_diagnostics (r : reply) : list drawn :=
  match r with
  | Raises msg | Response (TextRaises msg) =>
      [Drawn None st_error ("Error communicating with Gemini API: " ++ msg)]
  | _ => []
  end.

(** The world after the Summary step run on [w]: both advisor calls, the
    two sections, the closing message, and the stage Done. *)
Definition summarised (gemini : list string -> string -> reply) (w : world) : world :=
  let l := log_data (session w) in
  let s := gemini (prompts w) (summary_prompt l) in
  let a := gemini (prompts w ++ [summary_prompt l])%list (advice_prompt l) in
  World
    (SessionState
       (messages (session w)
        ++ [ Message assistant (summary_header ++ PyStr.nl ++ advisor_text s);
             Message assistant (advice_header ++ PyStr.nl ++ advisor_text a);
             Message assistant closing_message ])%list
       done l (symptoms_to_query (session w)) (user_input (session w)))
    (current_question_context w)
    (prompts w ++ [summary_prompt l; advice_prompt l])%list
    (page w ++ advisor_diagnostics s ++ advisor_diagnostics a
     ++ [ Drawn (Some assistant) st_markdown summary_header;
          Drawn (Some assistant) st_info (advisor_text s);
          Drawn (Some assistant) st_markdown advice_header;
          Drawn (Some assistant) st_success (advisor_text a);
          Drawn (Some assistant) st_markdown closing_message ])%list.

(** The world after the assistant says [text] in [w]. *)
Definition said (text : string) (w : world) : world :=
  World (set_messages (messages (session w) ++ [Message assistant text])%list (session w))
        (current_question_context w) (prompts w)
        (page w ++ [Drawn (Some assistant) st_markdown text])%list.

(** The chat history as the script draws it at the start of a run. *)
Definition history_drawn (l : list message) : list drawn :=
  map (fun m => Drawn (Some (role m)) st_markdown (content m)) l.

(** The world in which [handle_chat_input] runs when the chat input
    delivers [prompt] in [w]: a new agent, the history redrawn, the
    prompt stored, drawn and appended. *)
Definition entered (prompt : string) (w : world) : world :=
  World
    (SessionState (messages (session w) ++ [Message user prompt])%list
       (stage (session w)) (log_data (session w))
       (symptoms_to_query (session w)) (Some prompt))
    None (prompts w)
    (history_drawn (messages (session w)) ++ [Drawn (Some user) st_markdown prompt])%list.

(** The world after the escalation in [w]: the fixed message, drawn as
    an error and appended, and the stage Done. *)
Definition escalated (w : world) : world :=
  World
    (SessionState
       (messages (session w) ++ [Message assistant get_critical_symptom_response])%list
       done (log_data (session w)) (symptoms_to_query (session w))
       (user_input (session w)))
    (current_question_context w) (prompts w)
    (page w ++ [Drawn (Some assistant) st_error get_critical_symptom_response])%list.

(** Two models for examples: one that always answers, and one whose
    first call raises and whose later calls return no text. *)
Definition gemini_ok : list string -> string -> reply :=
  fun _ _ => Response (Text "- noted").

Definition gemini_down : list string -> string -> reply :=
  fun sent _ =>
    match sent with
    | [] => Raises "503 service unavailable"
    | _ :: _ => Response NoText
    end.

(** A text that is handled as an answer: not empty, and without a
    critical keyword. *)
Definition ordinary (text : string) : Prop :=
  PyStr.truthy text = true /\ check_for_critical_symptoms text = false.

(** Every queued question is a non-empty string, as the catalog's are. *)
Definition well_queued (queue : list (string * string)) : Prop :=
  Forall (fun sq => PyStr.truthy (snd sq) = true) queue.

(** ** The session store, key by key

    [st.session_state] as the script finds it at the start of a run:
    each key is there or not. *)

Record store : Type := Store {
  k_messages : option (list message);
  k_stage : option Stage;
  k_log_data : option health_log;
  k_symptoms_to_query : option (list (string * string));
  k_user_input : option string
}.

Definition empty_store : store := Store None None None None None.

(** The guarded assignments of [MediTrackAgent.__init__] (agent.py 27-30). *)
Definition agent_init (s : store) : store :=
  let s :=
    match k_log_data s with
    | None => Store (k_messages s) (k_stage s) (Some (HealthLog [] []))
                    (k_symptoms_to_query s) (k_user_input s)
    | Some _ => s
    end in
  match k_symptoms_to_query s with
  | None => Store (k_messages s) (k_stage s) (k_log_data s) (Some []) (k_user_input s)
  | Some _ => s
  end.

(** Session State Initialization (app.py 30-38). *)
Definition session_init (s : store) : store :=
  let s :=
    match k_messages s with
    | None => Store (Some []) (k_stage s) (k_log_data s)
                    (k_symptoms_to_query s) (k_user_input s)
    | Some _ => s
    end in
  match k_stage s with
  | None =>
      Store (option_map (fun l => l ++ [Message assistant greeting_text])%list (k_messages s))
            (Some greeting) (k_log_data s) (k_symptoms_to_query s) (k_user_input s)
  | Some _ => s
  end.

(** The start of a run: the agent is built, then the session is
    initialised. *)
Definition bootstrap (s : store) : store := session_init (agent_init s).

(** [for key in list(st.session_state.keys()): del st.session_state[key]] *)
Definition clear_all (s : store) : store := empty_store.

(** A session as a store with all its keys. *)
Definition stored (s : session_state) : store :=
  Store (Some (messages s)) (Some (stage s)) (Some (log_data s))
        (Some (symptoms_to_query s)) (user_input s).

(** The session a store holds, when the four keys of the script are
    there. *)
Definition loaded (s : store) : option session_state :=
  match k_messages s, k_stage s, k_log_data s, k_symptoms_to_query s with
  | Some m, Some g, Some l, Some q => Some (SessionState m g l q (k_user_input s))
  | _, _, _, _ => None
  end.

(** ** The calls of a conversation on one agent *)

(** One round: the next question is asked, and the answer to it is
    logged. *)
Definition ask_and_log (answer : string) : M unit :=
  ask_next_question ;; log_detail answer.

Fixpoint interview (answers : list string) : M unit :=
  match answers with
  | [] => ret tt
  | a :: r => ask_and_log a ;; interview r
  end.

(** The records that the answers to the queued questions make for a
    symptom: each question of the symptom with its answer, in order. *)
Definition answered (queue : list (string * string)) (answers : list string)
           (symptom : string) : list detail :=
  map (fun p => Detail (snd (fst p)) (snd p))
      (filter (fun p => String.eqb (fst (fst p)) symptom) (combine queue answers)).

(** ** More vocabulary *)

(** How often a character occurs in a string. *)
Fixpoint count_char (c : ascii) (s : string) : nat :=
  match s with
  | EmptyString => 0
  | String a r => (if Ascii.eqb a c then 1 else 0) + count_char c r
  end.

Definition newline : ascii := ascii_of_nat 10.

(** The stages in the order a conversation goes through them. *)
Definition rank (s : Stage) : nat :=
  match s with
  | greeting => 0
  | collecting_details => 1
  | summary => 2
  | done => 3
  end.

(** What holds of the session after every run of a conversation. *)
Definition consistent (s : session_state) : Prop :=
  stage s <> summary
  /\ (stage s = greeting ->
      symptoms_to_query s = [] /\ initial_symptoms (log_data s) = [])
  /\ (stage s = collecting_details -> initial_symptoms (log_data s) <> [])
  /\ (exists text, initial_symptoms (log_data s) = detect text)
  /\ (exists asked,
        flatten_questions (initial_symptoms (log_data s))
        = (asked ++ symptoms_to_query s)%list).

(** ** The turn as a transition relation

    [handles gemini text e e']: the handler, run in [e] on the stored
    input [text] (not empty), ends in [e']. One constructor per path
    through [handle_chat_input]. *)

Inductive handles (gemini : list string -> string -> reply) (text : string) (e : world)
  : world -> Prop :=
| h_escalate :
    check_for_critical_symptoms text = true ->
    handles gemini text e (escalated e)
| h_clarify :
    check_for_critical_symptoms text = false ->
    stage (session e) = greeting ->
    flatten_questions (detect text) = [] ->
    handles gemini text e
      (said clarification_prompt
         (with_session (fun s =>
            set_symptoms_to_query []
              (set_log_data (HealthLog (detect text) (details (log_data s))) s)) e))
| h_first_question sq r :
    check_for_critical_symptoms text = false ->
    stage (session e) = greeting ->
    flatten_questions (detect text) = sq :: r ->
    handles gemini text e
      (said (snd sq)
         (set_context (Some sq)
            (with_session (fun s =>
               set_stage collecting_details
                 (set_symptoms_to_query r
                    (set_log_data (HealthLog (detect text) (details (log_data s))) s))) e)))
| h_next_question sq r :
    check_for_critical_symptoms text = false ->
    stage (session e) = collecting_details ->
    symptoms_to_query (session e) = sq :: r ->
    PyStr.truthy (snd sq) = true ->
    handles gemini text e
      (said (snd sq)
         (set_context (Some sq)
            (with_session (set_symptoms_to_query r) (state_after (log_detail text) e))))
| h_summary :
    check_for_critical_symptoms text = false ->
    stage (session e) = collecting_details ->
    symptoms_to_query (session e) = [] ->
    handles gemini text e (summarised gemini (state_after (log_detail text) e))
| h_summary_on_blank sq r :
    check_for_critical_symptoms text = false ->
    stage (session e) = collecting_details ->
    symptoms_to_query (session e) = sq :: r ->
    PyStr.truthy (snd sq) = false ->
    handles gemini text e
      (summarised gemini
         (set_context (Some sq)
            (with_session (set_symptoms_to_query r) (state_after (log_detail text) e))))
| h_concluded :
    check_for_critical_symptoms text = false ->
    stage (session e) = done ->
    handles gemini text e (said concluded_message e)
| h_silent :
    check_for_critical_symptoms text = false ->
    stage (session e) = summary ->
    handles gemini text e e.

(** [runs gemini i w w']: a run of the script on the interaction [i]
    takes [w] to [w']. *)
Inductive runs (gemini : list string -> string -> reply) (w : world)
  : interaction -> world -> Prop :=
| r_new_log :
    runs gemini w start_new_log
      (World new_session None (prompts w)
             [Drawn (Some assistant) st_markdown greeting_text])
| r_turn prompt w' :
    stage (session w) <> done ->
    PyStr.truthy prompt = true ->
    handles gemini prompt (entered prompt w) w' ->
    runs gemini w (chat_input prompt) w'
| r_redraw i :
    i <> start_new_log ->
    (stage (session w) = done
     \/ i = idle
     \/ exists prompt, i = chat_input prompt /\ PyStr.truthy prompt = false) ->
    runs gemini w i
      (set_context None (set_page (history_drawn (messages (session w))) w)).

(** The assistant has not said that the session has concluded, and no
    queued question would make it say so. *)
Definition never_concluded (s : session_state) : Prop :=
  ~ In (Message assistant concluded_message) (messages s)
  /\ Forall (fun sq => snd sq <> concluded_message) (symptoms_to_query s).

(** * Properties *)

(** ** Strings *)

Module PyStrFacts.
Import PyStr.

Lemma startswith_spec (k s : string) :
  startswith k s = true <-> exists b, s = k ++ b.
Proof.
  revert s; induction k as [|a k IH]; intros s; simpl.
  - split; [intros _; now exists s | reflexivity].
  - destruct s as [|c s]; simpl.
    + split; [discriminate | intros [b Hb]; discriminate].
    + rewrite andb_true_iff, Ascii.eqb_eq, IH. split.
      * intros [-> [b ->]]. now exists b.
      * intros [b Hb]. injection Hb as -> ->. split; [reflexivity | now exists b].
Qed.

Lemma contains_spec (k s : string) :
  contains k s = true <-> Substring k s.
Proof.
  unfold Substring. induction s as [|c s IH].
  - simpl. rewrite orb_false_r, startswith_spec. split.
    + intros [b Hb]. now exists "", b.
    + intros [a [b Hab]]. destruct a; simpl in Hab; [now exists b | discriminate].
  - cbn [contains]. rewrite orb_true_iff, startswith_spec, IH. split.
    + intros [[b Hb] | [a [b Hb]]].
      * now exists "", b.
      * exists (String c a), b. simpl. now rewrite Hb.
    + intros [a [b Hab]]. destruct a as [|c' a]; simpl in Hab.
      * left. now exists b.
      * right. injection Hab as _ ->. now exists a, b.
Qed.

Lemma lower_app (a b : string) : lower (a ++ b) = lower a ++ lower b.
Proof. induction a as [|c a IH]; simpl; [reflexivity | now rewrite IH]. Qed.

Lemma lower_length (s : string) : String.length (lower s) = String.length s.
Proof. induction s as [|c s IH]; simpl; [reflexivity | now rewrite IH]. Qed.

(** A split of the lower-cased text is the image of a split of the text. *)
Lemma lower_split (s x y : string) :
  lower s = x ++ y -> exists s1 s2, s = s1 ++ s2 /\ lower s1 = x /\ lower s2 = y.
Proof.
  revert s; induction x as [|c x IH]; intros s H; simpl in H.
  - now exists "", s.
  - destruct s as [|d s]; simpl in H; [discriminate |].
    injection H as Hc Hs. destruct (IH _ Hs) as (s1 & s2 & -> & H1 & H2).
    exists (String d s1), s2. simpl. now rewrite Hc, H1.
Qed.

Lemma lower_char_idem (c : ascii) : lower_char (lower_char c) = lower_char c.
Proof.
  destruct c as [[] [] [] [] [] [] [] []]; reflexivity.
Qed.

Lemma lower_idem (s : string) : lower (lower s) = lower s.
Proof.
  induction s as [|c s IH]; simpl; [reflexivity | now rewrite lower_char_idem, IH].
Qed.

(** An occurrence in the lower-cased text is the lower-cased form of an
    occurrence in the text. *)
Lemma Substring_lower_inv (k s : string) :
  Substring k (lower s) -> exists v, lower v = k /\ Substring v s.
Proof.
  intros (a & b & H).
  destruct (lower_split _ _ _ H) as (s1 & s2 & -> & _ & H2).
  destruct (lower_split _ _ _ H2) as (v & s3 & -> & Hv & _).
  exists v. split; [exact Hv | now exists s1, s3].
Qed.

Lemma Substring_lower (v s : string) :
  Substring v s -> Substring (lower v) (lower s).
Proof.
  intros (a & b & ->). exists (lower a), (lower b). now rewrite !lower_app.
Qed.

End PyStrFacts.

(** ** The safety filter *)

Lemma check_for_critical_symptoms_true (text : string) :
  check_for_critical_symptoms text = true <->
  exists keyword, In keyword CRITICAL_SYMPTOMS /\ PyStr.Substring keyword (PyStr.lower text).
Proof.
  unfold check_for_critical_symptoms. rewrite existsb_exists.
  split; intros (k & Hk & H); exists k; (split; [exact Hk |]);
    now apply PyStrFacts.contains_spec.
Qed.

(** C1. [check_for_critical_symptoms] answers true exactly when the
    lower-cased text contains a critical keyword as a substring: it is
    true for every text that contains a keyword written in any letter
    case, and false for every text that contains none. *)
Theorem check_for_critical_symptoms_spec (text : string) :
  (check_for_critical_symptoms text = true <->
   exists keyword, In keyword CRITICAL_SYMPTOMS
                   /\ PyStr.Substring keyword (PyStr.lower text))
  /\ (forall keyword variant,
        In keyword CRITICAL_SYMPTOMS -> PyStr.lower variant = keyword ->
        PyStr.Substring variant text -> check_for_critical_symptoms text = true)
  /\ ((forall keyword variant,
         In keyword CRITICAL_SYMPTOMS -> PyStr.lower variant = keyword ->
         ~ PyStr.Substring variant text) ->
      check_for_critical_symptoms text = false).
Proof.
  split; [apply check_for_critical_symptoms_true | split].
  - intros k v Hk Hv Hsub. apply check_for_critical_symptoms_true.
    exists k. split; [exact Hk |]. rewrite <- Hv.
    now apply PyStrFacts.Substring_lower.
  - intros Hnone. destruct (check_for_critical_symptoms text) eqn:E; [| reflexivity].
    apply check_for_critical_symptoms_true in E. destruct E as (k & Hk & Hsub).
    destruct (PyStrFacts.Substring_lower_inv _ _ Hsub) as (v & Hv & Hin).
    exfalso. exact (Hnone k v Hk Hv Hin).
Qed.

(** A keyword in mixed case inside a sentence is found; a sentence about
    a headache holds no keyword in any case. *)
Lemma check_for_critical_symptoms_spec_witness :
  check_for_critical_symptoms "My CHEST Pain is back" = true
  /\ check_for_critical_symptoms "I have a headache" = false.
Proof.
  split.
  - apply (proj1 (proj2 (check_for_critical_symptoms_spec "My CHEST Pain is back"))
             "chest pain" "CHEST Pain").
    + cbn. tauto.
    + reflexivity.
    + exists "My ", " is back". reflexivity.
  - apply (proj2 (proj2 (check_for_critical_symptoms_spec "I have a headache"))).
    intros k v Hk Hv Hsub. apply PyStrFacts.Substring_lower in Hsub.
    rewrite Hv in Hsub. apply PyStrFacts.contains_spec in Hsub.
    cbn in Hk.
    repeat (destruct Hk as [<- | Hk]; [vm_compute in Hsub; discriminate Hsub |]).
    exact Hk.
Defined.

(** ** The statements of the agent, as state transformers *)

Lemma detect_cases (text : string) :
  detect text =
    ((if PyStr.contains "headache" (PyStr.lower text) then ["headache"] else [])
     ++ (if PyStr.contains "fever" (PyStr.lower text) then ["fever"] else [])
     ++ (if PyStr.contains "cough" (PyStr.lower text) then ["cough"] else []))%list.
Proof.
  unfold detect. cbn [PyDict.keys SYMPTOM_QUESTIONS map fst filter].
  destruct (PyStr.contains "headache" _), (PyStr.contains "fever" _),
    (PyStr.contains "cough" _); reflexivity.
Qed.

Lemma question_queue_detect (text : string) (w : world) :
  question_queue (detect text) w = (inr (flatten_questions (detect text)), w).
Proof.
  rewrite detect_cases.
  destruct (PyStr.contains "headache" _), (PyStr.contains "fever" _),
    (PyStr.contains "cough" _); reflexivity.
Qed.

Lemma log_initial_symptoms_run (text : string) (w : world) :
  log_initial_symptoms text w =
    (inr tt,
     with_session (fun s =>
       SessionState (messages s) (stage s)
                    (HealthLog (detect text) (details (log_data s)))
                    (flatten_questions (detect text)) (user_input s)) w).
Proof.
  unfold log_initial_symptoms, bind, modify. rewrite question_queue_detect.
  reflexivity.
Qed.

Lemma ask_next_question_run (w : world) :
  ask_next_question w =
    match symptoms_to_query (session w) with
    | [] => (inr None, w)
    | sq :: r =>
        (inr (Some (snd sq)),
         set_context (Some sq) (with_session (set_symptoms_to_query r) w))
    end.
Proof.
  unfold ask_next_question, pop_first, bind, gets, modify, ret.
  destruct (symptoms_to_query (session w)) eqn:E; [reflexivity |].
  cbn. rewrite E. reflexivity.
Qed.

Module PyDictFacts.
Import PyDict.

Section Facts.
Context {V : Type}.
Implicit Types (d : t V) (k : string) (v : V).

Lemma get_set_same d k v : get (set d k v) k = Some v.
Proof.
  induction d as [|[k' v'] d IH]; simpl.
  - now rewrite String.eqb_refl.
  - destruct (String.eqb k' k) eqn:E; simpl; rewrite E; [reflexivity | exact IH].
Qed.

Lemma get_set_other d k k' v : k' <> k -> get (set d k v) k' = get d k'.
Proof.
  intros Hne. induction d as [|[k0 v0] d IH]; simpl.
  - destruct (String.eqb k k') eqn:E; [| reflexivity].
    apply String.eqb_eq in E. congruence.
  - destruct (String.eqb k0 k) eqn:E; simpl.
    + apply String.eqb_eq in E. subst k0.
      destruct (String.eqb k k') eqn:E'; [| reflexivity].
      apply String.eqb_eq in E'. congruence.
    + now rewrite IH.
Qed.

Lemma set_set d k v v' : set (set d k v) k v' = set d k v'.
Proof.
  induction d as [|[k0 v0] d IH]; simpl.
  - now rewrite String.eqb_refl.
  - destruct (String.eqb k0 k) eqn:E; simpl; rewrite E; [reflexivity | now rewrite IH].
Qed.

Lemma keys_set_present d k v : mem d k = true -> keys (set d k v) = keys d.
Proof.
  unfold mem, keys. induction d as [|[k0 v0] d IH]; simpl; [discriminate |].
  destruct (String.eqb k0 k) eqn:E; simpl; [reflexivity |].
  intros H. now rewrite IH.
Qed.

Lemma keys_set_absent d k v : mem d k = false -> keys (set d k v) = (keys d ++ [k])%list.
Proof.
  unfold mem, keys. induction d as [|[k0 v0] d IH]; simpl; [reflexivity |].
  destruct (String.eqb k0 k) eqn:E; simpl; [discriminate |].
  intros H. now rewrite IH.
Qed.

End Facts.
End PyDictFacts.

Lemma log_detail_run (answer : string) (w : world) :
  log_detail answer w =
    (inr tt,
     match current_question_context w with
     | None => w
     | Some (symptom, question) =>
         with_session (fun s =>
           set_log_data
             (HealthLog (initial_symptoms (log_data s))
                (PyDict.set (details (log_data s)) symptom
                   (records_of (details (log_data s)) symptom
                    ++ [Detail question answer])%list)) s) w
     end).
Proof.
  unfold log_detail, bind, gets.
  destruct (current_question_context w) as [[symptom question]|]; [| reflexivity].
  unfold records_of, PyDict.mem.
  destruct (PyDict.get (details (log_data (session w))) symptom) as [l|] eqn:E.
  - cbn. unfold getitem. rewrite E.
    unfold ret, set_details, modify, with_session. cbn. now rewrite E.
  - cbn. unfold getitem. rewrite PyDictFacts.get_set_same.
    unfold ret, set_details, modify, with_session. cbn.
    now rewrite E, PyDictFacts.set_set.
Qed.

Lemma _call_gemini_run (gemini : list string -> string -> reply) (prompt : string) (w : world) :
  _call_gemini gemini prompt w =
    (inr (advisor_text (gemini (prompts w) prompt)),
     World (session w) (current_question_context w) (prompts w ++ [prompt])
           (page w ++ advisor_diagnostics (gemini (prompts w) prompt))).
Proof.
  unfold _call_gemini, try_except, bind, generate_content.
  destruct (gemini (prompts w) prompt) as [msg | [ | msg | t]]; cbn;
    rewrite ?app_nil_r; reflexivity.
Qed.

Lemma generate_summary_run (gemini : list string -> string -> reply) (w : world) :
  generate_summary gemini w =
    _call_gemini gemini (summary_prompt (log_data (session w))) w.
Proof. reflexivity. Qed.

Lemma generate_advice_run (gemini : list string -> string -> reply) (w : world) :
  generate_advice gemini w =
    _call_gemini gemini (advice_prompt (log_data (session w))) w.
Proof. reflexivity. Qed.

(** ** The turn handler, branch by branch *)

(** Names the fields of a world, so that a run of the handler computes. *)
Ltac open_world w :=
  destruct w as [[msgs stg lg queue ui] ctx sent pg];
  cbn [session current_question_context prompts page
       messages stage log_data symptoms_to_query user_input] in *.

Ltac fields :=
  cbn [session current_question_context prompts page
       messages stage log_data symptoms_to_query user_input];
  cbv beta iota.

(** Runs the state-passing plumbing, and nothing else. *)
Ltac run :=
  cbv beta iota zeta delta
    [said summarised draw append_message assign_stage modify ret bind gets
     with_session set_messages set_stage set_log_data set_symptoms_to_query
     set_user_input set_context set_page set_details state_after
     session current_question_context prompts page
     messages stage log_data symptoms_to_query user_input snd fst].

Lemma falsy_closing_message : falsy (Some closing_message) = false.
Proof. reflexivity. Qed.

Section Turn.

Variable gemini : list string -> string -> reply.

(** An empty or missing input: the handler returns at once. *)
Lemma handle_chat_input_no_input (w : world) :
  falsy (user_input (session w)) = true ->
  handle_chat_input gemini w = (inr tt, w).
Proof.
  unfold handle_chat_input, bind, gets, falsy.
  destruct (user_input (session w)) as [text|]; [| reflexivity].
  intros H. cbv beta iota. now rewrite H.
Qed.

(** The escalation branch. *)
Lemma handle_chat_input_critical (w : world) (text : string) :
  user_input (session w) = Some text ->
  check_for_critical_symptoms text = true ->
  handle_chat_input gemini w =
    (inr tt,
     World (SessionState
              (messages (session w) ++ [Message assistant get_critical_symptom_response])
              done (log_data (session w)) (symptoms_to_query (session w))
              (user_input (session w)))
           (current_question_context w) (prompts w)
           (page w ++ [Drawn (Some assistant) st_error get_critical_symptom_response])).
Proof.
  intros Hin Hcrit. destruct text as [|c text]; [discriminate Hcrit |].
  open_world w. subst ui.
  unfold handle_chat_input, bind, gets. cbn [session user_input negb PyStr.truthy].
  cbv beta iota. rewrite Hcrit. reflexivity.
Qed.

(** The greeting branch. *)
Lemma handle_chat_input_greeting (w : world) (text : string) :
  user_input (session w) = Some text ->
  PyStr.truthy text = true ->
  check_for_critical_symptoms text = false ->
  stage (session w) = greeting ->
  handle_chat_input gemini w =
    (inr tt,
     let l := HealthLog (detect text) (details (log_data (session w))) in
     match flatten_questions (detect text) with
     | [] =>
         said clarification_prompt
           (with_session (fun s => set_symptoms_to_query [] (set_log_data l s)) w)
     | sq :: r =>
         said (snd sq)
           (set_context (Some sq)
              (with_session (fun s =>
                 set_stage collecting_details
                   (set_symptoms_to_query r (set_log_data l s))) w))
     end).
Proof.
  intros Hin Htext Hcrit Hst. destruct text as [|c text]; [discriminate Htext |].
  open_world w. subst ui stg.
  unfold handle_chat_input, bind, gets. cbn [session user_input stage negb PyStr.truthy].
  cbv beta iota. rewrite Hcrit. fields. rewrite log_initial_symptoms_run.
  cbv beta iota. rewrite ask_next_question_run.
  rewrite detect_cases.
  destruct (PyStr.contains "headache" _), (PyStr.contains "fever" _),
    (PyStr.contains "cough" _); reflexivity.
Qed.

(** The detail branch. *)
Lemma handle_chat_input_collecting (w : world) (text : string) :
  user_input (session w) = Some text ->
  PyStr.truthy text = true ->
  check_for_critical_symptoms text = false ->
  stage (session w) = collecting_details ->
  handle_chat_input gemini w =
    (inr tt,
     let w1 := state_after (log_detail text) w in
     match symptoms_to_query (session w) with
     | [] => summarised gemini w1
     | sq :: r =>
         let w2 := set_context (Some sq) (with_session (set_symptoms_to_query r) w1) in
         if PyStr.truthy (snd sq) then said (snd sq) w2 else summarised gemini w2
     end).
Proof.
  intros Hin Htext Hcrit Hst. destruct text as [|c text]; [discriminate Htext |].
  unfold state_after. rewrite log_detail_run.
  open_world w. subst ui stg.
  unfold handle_chat_input. run. cbn [negb PyStr.truthy]. rewrite Hcrit. run.
  rewrite log_detail_run. run. rewrite ask_next_question_run.
  destruct ctx as [[symptom question]|], queue as [|[s [|q0 q]] r];
    run; cbn [falsy negb PyStr.truthy]; run;
    rewrite ?generate_summary_run, ?_call_gemini_run; run;
    rewrite ?generate_advice_run, ?_call_gemini_run; run;
    rewrite ?falsy_closing_message; run;
    rewrite <- ?app_assoc; reflexivity.
Qed.

(** The branch of a concluded session. *)
Lemma handle_chat_input_done (w : world) (text : string) :
  user_input (session w) = Some text ->
  PyStr.truthy text = true ->
  check_for_critical_symptoms text = false ->
  stage (session w) = done ->
  handle_chat_input gemini w = (inr tt, said concluded_message w).
Proof.
  intros Hin Htext Hcrit Hst. destruct text as [|c text]; [discriminate Htext |].
  open_world w. subst ui stg.
  unfold handle_chat_input, bind, gets. cbn [session user_input stage negb PyStr.truthy].
  cbv beta iota. rewrite Hcrit. fields. reflexivity.
Qed.

(** The stage Summary is left within the turn that enters it; a turn
    that started in it would say nothing. *)
Lemma handle_chat_input_summary (w : world) (text : string) :
  user_input (session w) = Some text ->
  PyStr.truthy text = true ->
  check_for_critical_symptoms text = false ->
  stage (session w) = summary ->
  handle_chat_input gemini w = (inr tt, w).
Proof.
  intros Hin Htext Hcrit Hst. destruct text as [|c text]; [discriminate Htext |].
  open_world w. subst ui stg.
  unfold handle_chat_input, bind, gets. cbn [session user_input stage negb PyStr.truthy].
  cbv beta iota. rewrite Hcrit. reflexivity.
Qed.

End Turn.

(** ** Runs of the script *)

Section Script.

Variable gemini : list string -> string -> reply.

(** The handler never raises. *)
Lemma handle_chat_input_returns (w : world) :
  fst (handle_chat_input gemini w) = inr tt.
Proof.
  destruct (falsy (user_input (session w))) eqn:Hin.
  - now rewrite handle_chat_input_no_input.
  - destruct (user_input (session w)) as [text|] eqn:Hu; [| discriminate Hin].
    cbn [falsy] in Hin. apply negb_false_iff in Hin.
    destruct (check_for_critical_symptoms text) eqn:Hcrit.
    + now rewrite (handle_chat_input_critical gemini w text).
    + destruct (stage (session w)) eqn:Hst.
      * now rewrite (handle_chat_input_greeting gemini w text).
      * now rewrite (handle_chat_input_collecting gemini w text).
      * now rewrite (handle_chat_input_summary gemini w text).
      * now rewrite (handle_chat_input_done gemini w text).
Qed.

Lemma display_history_run (l : list message) (w : world) :
  display_history l w = (inr tt, set_page (page w ++ history_drawn l) w).
Proof.
  revert w; induction l as [|m l IH]; intros w.
  - destruct w. cbn. now rewrite app_nil_r.
  - cbn [display_history]. unfold bind at 1. unfold draw at 1. unfold modify.
    rewrite IH. destruct w. cbn. now rewrite <- app_assoc.
Qed.

(** A run with a message in the chat input, in a session that has not
    concluded, is the handler run on that message. *)
Lemma script_run_chat_input (w : world) (prompt : string) :
  stage (session w) <> done ->
  PyStr.truthy prompt = true ->
  script_run gemini (chat_input prompt) w =
    (inr tt, state_after (handle_chat_input gemini) (entered prompt w)).
Proof.
  intros Hst Hp. unfold state_after.
  pose proof (handle_chat_input_returns (entered prompt w)) as Hret.
  destruct (handle_chat_input gemini (entered prompt w)) as [r w'] eqn:E.
  cbn [fst] in Hret. subst r. cbn [snd].
  unfold entered in E. open_world w.
  unfold script_run. run. rewrite display_history_run. run. cbn [app].
  destruct stg; try congruence; rewrite Hp; run; rewrite E; reflexivity.
Qed.

(** A run of the script in a concluded session offers no chat input,
    and changes nothing but the page, unless the log is started anew. *)
Lemma script_run_done (w : world) (i : interaction) :
  stage (session w) = done ->
  i <> start_new_log ->
  script_run gemini i w = (inr tt, set_context None (set_page (history_drawn (messages (session w))) w)).
Proof.
  intros Hst Hi. open_world w. subst stg.
  unfold script_run. run. rewrite display_history_run. run. cbn [app].
  destruct i; try congruence; reflexivity.
Qed.

End Script.

(** ** Escalation *)

Lemma handle_chat_input_keeps_done (gemini : list string -> string -> reply) (w : world) :
  stage (session w) = done ->
  stage (session (state_after (handle_chat_input gemini) w)) = done.
Proof.
  intros Hst. unfold state_after.
  destruct (falsy (user_input (session w))) eqn:Hin.
  - now rewrite handle_chat_input_no_input.
  - destruct (user_input (session w)) as [text|] eqn:Hu; [| discriminate Hin].
    cbn [falsy] in Hin. apply negb_false_iff in Hin.
    destruct (check_for_critical_symptoms text) eqn:Hcrit.
    + now rewrite (handle_chat_input_critical gemini w text).
    + now rewrite (handle_chat_input_done gemini w text).
Qed.

Lemma script_runs_keep_done (gemini : list string -> string -> reply)
      (l : list interaction) (w : world) :
  stage (session w) = done ->
  ~ In start_new_log l ->
  fst (script_runs gemini l w) = inr tt
  /\ stage (session (state_after (script_runs gemini l) w)) = done.
Proof.
  unfold state_after. revert w; induction l as [|i l IH]; intros w Hst Hl.
  - now split.
  - cbn [script_runs]. unfold bind.
    rewrite script_run_done; [| exact Hst | intros ->; apply Hl; now left].
    apply IH; [exact Hst | intros H; apply Hl; now right].
Qed.

(** C2. A turn whose text triggers the safety filter, whatever the
    stage, does nothing but escalate: the fixed message is the one thing
    emitted, the stage becomes Done, and the log, the question queue, the
    pending-question context and the prompts sent to the advisor are as
    they were. From then on the stage stays Done under every run of the
    script, until the log is started anew. *)
Theorem escalation_preempts_the_turn
        (gemini : list string -> string -> reply) (text : string) :
  check_for_critical_symptoms text = true ->
  (forall w, user_input (session w) = Some text ->
             handle_chat_input gemini w = (inr tt, escalated w))
  /\ (forall w, stage (session w) <> done ->
                script_run gemini (chat_input text) w
                = (inr tt, escalated (entered text w)))
  /\ (forall w l, stage (session w) = done -> ~ In start_new_log l ->
                  stage (session (state_after (script_runs gemini l) w)) = done)
  /\ (forall w, stage (session w) = done ->
                stage (session (state_after (handle_chat_input gemini) w)) = done).
Proof.
  intros Hcrit. repeat split.
  - intros w Hin. now apply (handle_chat_input_critical gemini w text).
  - intros w Hst.
    assert (Ht : PyStr.truthy text = true)
      by (destruct text; [discriminate Hcrit | reflexivity]).
    rewrite script_run_chat_input by assumption.
    unfold state_after.
    now rewrite (handle_chat_input_critical gemini (entered text w) text).
  - intros w l Hst Hl. now apply script_runs_keep_done.
  - intros w Hst. now apply handle_chat_input_keeps_done.
Qed.

(** A detail-collection turn that mentions chest pain ends the session,
    and the turns that follow leave it ended. *)
Lemma escalation_preempts_the_turn_witness :
  let w := state_after (script_runs gemini_ok [chat_input "I have a headache"]) new_world in
  let w' := state_after (script_run gemini_ok (chat_input "It feels like CHEST PAIN")) w in
  stage (session w) = collecting_details
  /\ w' = escalated (entered "It feels like CHEST PAIN" w)
  /\ stage (session (state_after (script_runs gemini_ok [chat_input "hello"; idle]) w')) = done.
Proof.
  pose proof (escalation_preempts_the_turn gemini_ok "It feels like CHEST PAIN" eq_refl)
    as (_ & Hrun & Hstay & _).
  cbv zeta. split; [reflexivity | split].
  - unfold state_after at 1. rewrite Hrun; [reflexivity | discriminate].
  - apply Hstay.
    + unfold state_after at 1. rewrite Hrun; [reflexivity | discriminate].
    + intros [H | [H | []]]; discriminate H.
Defined.

(** ** Failures of the advisor *)

Lemma script_run_returns (gemini : list string -> string -> reply)
      (i : interaction) (w : world) :
  fst (script_run gemini i w) = inr tt.
Proof.
  destruct (stage (session w)) eqn:Hst.
  4: { open_world w. subst stg.
       unfold script_run. run. rewrite display_history_run. run.
       destruct i; reflexivity. }
  all: destruct i as [prompt| |];
    [ destruct (PyStr.truthy prompt) eqn:Hp;
      [ rewrite script_run_chat_input by (assumption || congruence); reflexivity | ]
    | | ];
    open_world w; subst stg; unfold script_run; run;
    rewrite display_history_run; run; rewrite ?Hp; reflexivity.
Qed.

(** C3. A failure of an advisor call stops at [_call_gemini]: a raised
    exception (also one raised on reading the text) gives the error
    fallback, a response without text gives the no-text fallback, and
    the call never raises. Nothing is raised out of the handler or out of
    a run of the script, and the detail-collection turn that finds the
    queue exhausted ends in the stage Done with the fallback texts under
    their headers, whatever the model replies. The two fallbacks are the
    quoted sentences with their full stop. *)
Theorem advisor_failure_is_contained
        (gemini : list string -> string -> reply) (w : world) :
  (forall prompt,
     raised (_call_gemini gemini prompt) w = None
     /\ value_of (_call_gemini gemini prompt) w
        = Some (advisor_text (gemini (prompts w) prompt))
     /\ (forall msg, gemini (prompts w) prompt = Raises msg ->
                     value_of (_call_gemini gemini prompt) w = Some error_fallback)
     /\ (forall msg, gemini (prompts w) prompt = Response (TextRaises msg) ->
                     value_of (_call_gemini gemini prompt) w = Some error_fallback)
     /\ (gemini (prompts w) prompt = Response NoText ->
         value_of (_call_gemini gemini prompt) w = Some no_text_fallback)
     /\ (failed (gemini (prompts w) prompt) = true ->
         value_of (_call_gemini gemini prompt) w = Some error_fallback
         \/ value_of (_call_gemini gemini prompt) w = Some no_text_fallback))
  /\ raised (handle_chat_input gemini) w = None
  /\ (forall i, raised (script_run gemini i) w = None)
  /\ (forall text,
        user_input (session w) = Some text ->
        PyStr.truthy text = true ->
        check_for_critical_symptoms text = false ->
        stage (session w) = collecting_details ->
        symptoms_to_query (session w) = [] ->
        state_after (handle_chat_input gemini) w
        = summarised gemini (state_after (log_detail text) w)
        /\ stage (session (state_after (handle_chat_input gemini) w)) = done)
  /\ error_fallback = "An error occurred while trying to generate a response" ++ "."
  /\ no_text_fallback = "The model could not generate a response for this query" ++ ".".
Proof.
  split; [| split; [| split; [| split; [| split; reflexivity]]]].
  - intros prompt. unfold raised, value_of. rewrite _call_gemini_run. cbn [fst].
    split; [reflexivity | split; [reflexivity |]].
    split; [| split; [| split]];
      try (intros; match goal with H : gemini _ _ = _ |- _ => now rewrite H end).
    destruct (gemini (prompts w) prompt) as [msg | [ | msg | t]]; cbn;
      intros Hf; [now left | now right | now left | discriminate Hf].
  - unfold raised. now rewrite handle_chat_input_returns.
  - intros i. unfold raised. now rewrite script_run_returns.
  - intros text Hin Ht Hcrit Hst Hq.
    assert (E : state_after (handle_chat_input gemini) w
                = summarised gemini (state_after (log_detail text) w)).
    { unfold state_after at 1.
      rewrite (handle_chat_input_collecting gemini w text) by assumption.
      now rewrite Hq. }
    split; [exact E | now rewrite E].
Qed.

(** With the model down (its first call raises, its second returns no
    text), the last answer of a headache log still ends the session, with
    both fallbacks in the chat. *)
Lemma advisor_failure_is_contained_witness :
  let w := entered "Behind the eyes"
             (state_after (script_runs gemini_down
                [chat_input "I have a headache"; chat_input "7"]) new_world) in
  let w' := state_after (handle_chat_input gemini_down) w in
  raised (handle_chat_input gemini_down) w = None
  /\ stage (session w') = done
  /\ skipn 6 (messages (session w'))
     = [ Message assistant (summary_header ++ PyStr.nl ++ error_fallback);
         Message assistant (advice_header ++ PyStr.nl ++ no_text_fallback);
         Message assistant closing_message ].
Proof.
  cbv zeta.
  pose proof (advisor_failure_is_contained gemini_down
                (entered "Behind the eyes"
                   (state_after (script_runs gemini_down
                      [chat_input "I have a headache"; chat_input "7"]) new_world)))
    as (_ & Hraise & _ & Hlast & _).
  split; [exact Hraise |].
  destruct (Hlast "Behind the eyes" eq_refl eq_refl eq_refl eq_refl eq_refl) as [E Hdone].
  split; [exact Hdone |].
  rewrite E. reflexivity.
Defined.

(** ** Symptom detection *)

Lemma catalog_keys_NoDup : NoDup (PyDict.keys SYMPTOM_QUESTIONS).
Proof.
  repeat constructor; cbn; intuition discriminate.
Qed.

Lemma catalog_keys_lower (s : string) :
  In s (PyDict.keys SYMPTOM_QUESTIONS) -> PyStr.lower s = s.
Proof.
  cbn. intros [<- | [<- | [<- | []]]]; reflexivity.
Qed.

Lemma detect_by_lowered_key (text : string) :
  detect text
  = filter (fun s => PyStr.contains (PyStr.lower s) (PyStr.lower text))
           (PyDict.keys SYMPTOM_QUESTIONS).
Proof.
  unfold detect. apply filter_ext_in. intros s Hs.
  now rewrite (catalog_keys_lower s Hs).
Qed.

Lemma detect_In (text s : string) :
  In s (detect text) <->
  In s (PyDict.keys SYMPTOM_QUESTIONS)
  /\ PyStr.Substring (PyStr.lower s) (PyStr.lower text).
Proof.
  rewrite detect_by_lowered_key, filter_In, PyStrFacts.contains_spec. reflexivity.
Qed.

Lemma detect_NoDup (text : string) : NoDup (detect text).
Proof. apply NoDup_filter, catalog_keys_NoDup. Qed.

(** C4. In the greeting stage the detected list holds exactly the
    catalog keys whose lower-cased form occurs in the lower-cased text,
    each one once however often the text mentions it, in the order of the
    catalog keys; the question queue is the flattening of the detected
    symptoms' questions in the order the catalog declares them. The text
    "I have a headache and a fever" gives headache and fever, and a queue
    of four questions. *)
Theorem log_initial_symptoms_detects (text : string) (w : world) :
  let w' := state_after (log_initial_symptoms text) w in
  raised (log_initial_symptoms text) w = None
  /\ initial_symptoms (log_data (session w')) = detect text
  /\ symptoms_to_query (session w') = flatten_questions (detect text)
  /\ detect text
     = filter (fun s => PyStr.contains (PyStr.lower s) (PyStr.lower text))
              (PyDict.keys SYMPTOM_QUESTIONS)
  /\ (forall s, In s (detect text) <->
                In s (PyDict.keys SYMPTOM_QUESTIONS)
                /\ PyStr.Substring (PyStr.lower s) (PyStr.lower text))
  /\ NoDup (detect text)
  /\ (forall s, In s (detect text) -> count_occ string_dec (detect text) s = 1)
  /\ detect "I have a headache and a fever" = ["headache"; "fever"]
  /\ length (flatten_questions (detect "I have a headache and a fever")) = 4
  /\ detect "Headache. Such a headache! HEADACHE" = ["headache"].
Proof.
  cbv zeta. unfold raised, state_after. rewrite log_initial_symptoms_run.
  split; [reflexivity | split; [destruct w; reflexivity | split; [destruct w; reflexivity |]]].
  split; [apply detect_by_lowered_key | split; [intros s; apply detect_In |]].
  split; [apply detect_NoDup | split; [| repeat split]].
  intros s Hs.
  pose proof (proj1 (NoDup_count_occ string_dec (detect text)) (detect_NoDup text) s) as Hle.
  pose proof (proj1 (count_occ_In string_dec (detect text) s) Hs) as Hge.
  lia.
Qed.

(** A text that names two symptoms, one of them three times. *)
Lemma log_initial_symptoms_detects_witness :
  In "fever" (detect "Fever since monday, a cough, fever, FEVER")
  /\ count_occ string_dec (detect "Fever since monday, a cough, fever, FEVER") "fever" = 1.
Proof.
  pose proof (log_initial_symptoms_detects "Fever since monday, a cough, fever, FEVER" new_world)
    as (_ & _ & _ & _ & _ & _ & Hcount & _).
  assert (Hin : In "fever" (detect "Fever since monday, a cough, fever, FEVER"))
    by (cbn; now left).
  split; [exact Hin | exact (Hcount "fever" Hin)].
Defined.

(** C9. [log_initial_symptoms] replaces the record: the symptom list and
    the question queue after a call are those of its own text, whatever
    the session held before, also after an earlier call; so a greeting
    turn that detects nothing leaves no symptom and no question of an
    earlier text. *)
Theorem log_initial_symptoms_replaces (text : string) (w : world) :
  let after x := session (state_after (log_initial_symptoms text) x) in
  initial_symptoms (log_data (after w)) = detect text
  /\ symptoms_to_query (after w) = flatten_questions (detect text)
  /\ (forall w0, initial_symptoms (log_data (after w0)) = initial_symptoms (log_data (after w))
                 /\ symptoms_to_query (after w0) = symptoms_to_query (after w))
  /\ (forall earlier,
        let w1 := state_after (log_initial_symptoms earlier) w in
        initial_symptoms (log_data (after w1)) = detect text
        /\ symptoms_to_query (after w1) = flatten_questions (detect text)
        /\ (detect text = [] ->
            initial_symptoms (log_data (after w1)) = []
            /\ symptoms_to_query (after w1) = []))
  /\ (forall gemini earlier,
        let w1 := state_after (log_initial_symptoms earlier) w in
        let w2 := state_after (handle_chat_input gemini) w1 in
        stage (session w1) = greeting ->
        user_input (session w1) = Some text ->
        PyStr.truthy text = true ->
        check_for_critical_symptoms text = false ->
        detect text = [] ->
        initial_symptoms (log_data (session w2)) = []
        /\ symptoms_to_query (session w2) = []
        /\ stage (session w2) = greeting).
Proof.
  cbv zeta. unfold state_after. rewrite !log_initial_symptoms_run.
  split; [destruct w; reflexivity | split; [destruct w; reflexivity |]].
  split; [| split].
  - intros w0. rewrite log_initial_symptoms_run. destruct w, w0. now split.
  - intros earlier. rewrite log_initial_symptoms_run. destruct w; cbn.
    split; [reflexivity | split; [reflexivity |]]. intros ->. now split.
  - intros gemini earlier Hst Hin Ht Hcrit Hnone.
    rewrite (handle_chat_input_greeting gemini _ text) by assumption.
    rewrite Hnone. destruct w. now cbn.
Qed.

(** After a greeting text that names a headache, a log call on a text
    that names nothing leaves the list and the queue empty. *)
Lemma log_initial_symptoms_replaces_witness :
  let w1 := state_after (log_initial_symptoms "a headache") new_world in
  let w2 := state_after (log_initial_symptoms "not sure really") w1 in
  initial_symptoms (log_data (session w1)) = ["headache"]
  /\ initial_symptoms (log_data (session w2)) = []
  /\ symptoms_to_query (session w2) = [].
Proof.
  cbv zeta. split; [reflexivity |].
  destruct (log_initial_symptoms_replaces "not sure really" new_world) as (_ & _ & _ & H & _).
  destruct (H "a headache") as (_ & _ & Hnone).
  exact (Hnone eq_refl).
Defined.

(** ** The greeting stage *)

Lemma detect_nil_iff (text : string) :
  detect text = [] <->
  forall s, In s (PyDict.keys SYMPTOM_QUESTIONS) ->
            ~ PyStr.Substring s (PyStr.lower text).
Proof.
  split.
  - intros Hnil s Hs Hsub.
    assert (Hin : In s (detect text)).
    { apply detect_In. split; [exact Hs |]. now rewrite (catalog_keys_lower s Hs). }
    rewrite Hnil in Hin. exact Hin.
  - intros Hnone. destruct (detect text) as [|s l] eqn:E; [reflexivity |].
    assert (Hin : In s (detect text)) by (rewrite E; now left).
    apply detect_In in Hin. destruct Hin as [Hs Hsub].
    rewrite (catalog_keys_lower s Hs) in Hsub. now destruct (Hnone s Hs).
Qed.

(** C8, as the code has it. A greeting-stage input that is not empty and
    holds no catalog key and no critical keyword leaves the stage at
    Greeting and the question queue empty, and is answered by the
    clarification prompt and nothing else; an empty input is ignored. *)
Theorem unrecognised_greeting_asks_for_symptoms
        (gemini : list string -> string -> reply) (w : world) (text : string) :
  stage (session w) = greeting ->
  PyStr.truthy text = true ->
  detect text = [] ->
  check_for_critical_symptoms text = false ->
  (user_input (session w) = Some text ->
   let w' := state_after (handle_chat_input gemini) w in
   raised (handle_chat_input gemini) w = None
   /\ stage (session w') = greeting
   /\ symptoms_to_query (session w') = []
   /\ messages (session w')
      = (messages (session w) ++ [Message assistant clarification_prompt])%list
   /\ page w' = (page w ++ [Drawn (Some assistant) st_markdown clarification_prompt])%list
   /\ prompts w' = prompts w)
  /\ (let w' := state_after (script_run gemini (chat_input text)) w in
      stage (session w') = greeting
      /\ symptoms_to_query (session w') = []
      /\ messages (session w')
         = (messages (session w)
            ++ [Message user text; Message assistant clarification_prompt])%list)
  /\ (forall w0, user_input (session w0) = Some "" ->
                 handle_chat_input gemini w0 = (inr tt, w0)).
Proof.
  intros Hst Ht Hnone Hcrit. split; [| split].
  - intros Hin. cbv zeta. unfold raised, state_after.
    rewrite (handle_chat_input_greeting gemini w text) by assumption.
    rewrite Hnone. destruct w. now cbn.
  - cbv zeta. unfold state_after at 1 2 3.
    rewrite script_run_chat_input by (assumption || congruence).
    cbn [snd]. unfold state_after.
    rewrite (handle_chat_input_greeting gemini (entered text w) text);
      [| reflexivity | assumption | assumption | exact Hst].
    rewrite Hnone. destruct w. cbn. rewrite <- app_assoc. now cbn.
  - intros w0 H0. apply handle_chat_input_no_input. now rewrite H0.
Qed.

(** A first message that names no known symptom. *)
Lemma unrecognised_greeting_asks_for_symptoms_witness :
  let w' := state_after (script_run gemini_ok (chat_input "I feel a bit off")) new_world in
  stage (session w') = greeting
  /\ symptoms_to_query (session w') = []
  /\ messages (session w')
     = [ Message assistant greeting_text; Message user "I feel a bit off";
         Message assistant clarification_prompt ].
Proof.
  exact (proj1 (proj2 (unrecognised_greeting_asks_for_symptoms
                         gemini_ok new_world "I feel a bit off"
                         eq_refl eq_refl eq_refl eq_refl))).
Defined.

(** The empty input holds no catalog key and no critical keyword, and in
    the greeting stage the handler returns at once on it: no
    clarification prompt is emitted. *)
Lemma empty_greeting_input_gets_no_reply :
  let w := World (set_user_input (Some "") new_session) None [] [] in
  let w' := state_after (handle_chat_input gemini_ok) w in
  stage (session w) = greeting
  /\ user_input (session w) = Some ""
  /\ detect "" = []
  /\ check_for_critical_symptoms "" = false
  /\ w' = w
  /\ messages (session w')
     <> (messages (session w) ++ [Message assistant clarification_prompt])%list.
Proof.
  cbv zeta. repeat split. discriminate.
Qed.

(** ** Logging an answer *)

(** C10. With a pending-question context, [log_detail] appends one
    record, the question with the answer as it was typed, at the end of
    the records of the context's symptom, adding the symptom as the last
    key when it had none; the records of every other symptom, the symptom
    list, the question queue and all the rest of the state are as
    before. *)
Theorem log_detail_appends_one_record
        (w : world) (answer symptom question : string) :
  current_question_context w = Some (symptom, question) ->
  let w' := state_after (log_detail answer) w in
  let d := details (log_data (session w)) in
  let d' := details (log_data (session w')) in
  raised (log_detail answer) w = None
  /\ PyDict.get d' symptom
     = Some (records_of d symptom ++ [Detail question answer])%list
  /\ (forall s, s <> symptom -> PyDict.get d' s = PyDict.get d s)
  /\ PyDict.keys d'
     = (if PyDict.mem d symptom then PyDict.keys d else PyDict.keys d ++ [symptom])%list
  /\ initial_symptoms (log_data (session w')) = initial_symptoms (log_data (session w))
  /\ symptoms_to_query (session w') = symptoms_to_query (session w)
  /\ messages (session w') = messages (session w)
  /\ stage (session w') = stage (session w)
  /\ user_input (session w') = user_input (session w)
  /\ current_question_context w' = current_question_context w
  /\ prompts w' = prompts w
  /\ page w' = page w.
Proof.
  intros Hctx. cbv zeta. unfold raised, state_after. rewrite log_detail_run.
  rewrite Hctx. open_world w. cbn -[PyDict.get PyDict.set PyDict.keys PyDict.mem records_of].
  split; [reflexivity | split; [apply PyDictFacts.get_set_same | split]].
  - intros s Hs. now apply PyDictFacts.get_set_other.
  - split; [| repeat split; assumption].
    destruct (PyDict.mem (details lg) symptom) eqn:E.
    + now apply PyDictFacts.keys_set_present.
    + now apply PyDictFacts.keys_set_absent.
Qed.

(** A second answer about the headache, with one about the fever already
    in the log. *)
Lemma log_detail_appends_one_record_witness :
  let q1 := "On a scale of 1 to 10, how severe is it?" in
  let q2 := "Where is the pain located?" in
  let d := [("fever", [Detail "How long have you felt feverish?" "Two days"]);
            ("headache", [Detail q1 "7"])] in
  let w := World (SessionState [] collecting_details
                    (HealthLog ["headache"; "fever"] d) [] (Some "Behind my LEFT eye"))
                 (Some ("headache", q2)) [] [] in
  details (log_data (session (state_after (log_detail "Behind my LEFT eye") w)))
  = [("fever", [Detail "How long have you felt feverish?" "Two days"]);
     ("headache", [Detail q1 "7"; Detail q2 "Behind my LEFT eye"])]
  /\ PyDict.get (details (log_data (session (state_after (log_detail "Behind my LEFT eye") w))))
                "headache"
     = Some [Detail q1 "7"; Detail q2 "Behind my LEFT eye"].
Proof.
  cbv zeta. split; [reflexivity |].
  exact (proj1 (proj2 (log_detail_appends_one_record
    (World (SessionState [] collecting_details
              (HealthLog ["headache"; "fever"]
                 [("fever", [Detail "How long have you felt feverish?" "Two days"]);
                  ("headache", [Detail "On a scale of 1 to 10, how severe is it?" "7"])])
              [] (Some "Behind my LEFT eye"))
           (Some ("headache", "Where is the pain located?")) [] [])
    "Behind my LEFT eye" "headache" "Where is the pain located?" eq_refl))).
Defined.

(** Without a pending-question context [log_detail] does nothing. *)
Lemma log_detail_without_context (w : world) (answer : string) :
  current_question_context w = None ->
  log_detail answer w = (inr tt, w).
Proof. intros H. rewrite log_detail_run. now rewrite H. Qed.

(** A run of the script starts with a new agent, so the handler finds no
    pending-question context: no run records an answer. *)
Lemma script_run_keeps_details
      (gemini : list string -> string -> reply) (i : interaction) (w : world) :
  i <> start_new_log ->
  details (log_data (session (state_after (script_run gemini i) w)))
  = details (log_data (session w)).
Proof.
  intros Hi.
  assert (Hidle : forall w0 : world,
             details (log_data (session
               (set_context None (set_page (history_drawn (messages (session w0))) w0))))
             = details (log_data (session w0))) by (intros []; reflexivity).
  destruct (stage (session w)) eqn:Hst.
  4: { unfold state_after. rewrite script_run_done by assumption. apply Hidle. }
  all: destruct i as [prompt| |]; [| congruence |].
  all: try (unfold state_after; open_world w; subst stg; unfold script_run; run;
            rewrite display_history_run; reflexivity).
  all: destruct (PyStr.truthy prompt) eqn:Hp;
    [| unfold state_after; open_world w; subst stg; unfold script_run; run;
       rewrite display_history_run; run; rewrite Hp; reflexivity ].
  all: unfold state_after at 1;
    rewrite script_run_chat_input by (assumption || congruence); cbn [snd];
    unfold state_after;
    destruct (check_for_critical_symptoms prompt) eqn:Hcrit;
    [ rewrite (handle_chat_input_critical gemini (entered prompt w) prompt)
        by (assumption || reflexivity); destruct w; reflexivity | ].
  - rewrite (handle_chat_input_greeting gemini (entered prompt w) prompt)
      by (assumption || reflexivity).
    destruct (flatten_questions (detect prompt)); destruct w; reflexivity.
  - rewrite (handle_chat_input_collecting gemini (entered prompt w) prompt)
      by (assumption || reflexivity).
    unfold state_after. rewrite log_detail_without_context by reflexivity.
    destruct w as [[msgs stg lg [|sq r] ui] ctx sent pg]; cbn; [reflexivity |].
    destruct (PyStr.truthy (snd sq)); reflexivity.
  - rewrite (handle_chat_input_summary gemini (entered prompt w) prompt)
      by (assumption || reflexivity).
    destruct w; reflexivity.
Qed.

(** C5, on the code. In a conversation about a headache the first
    question is asked and is the pending context at the end of its run;
    the run that receives the answer "7" leaves the details empty, where
    [log_detail] on the pending context would have recorded the answer
    under the headache. *)
Theorem answer_is_lost_between_runs :
  let q := "On a scale of 1 to 10, how severe is it?" in
  let w1 := state_after (script_run gemini_ok (chat_input "I have a headache")) new_world in
  let w2 := state_after (script_run gemini_ok (chat_input "7")) w1 in
  stage (session w1) = collecting_details
  /\ current_question_context w1 = Some ("headache", q)
  /\ details (log_data (session w2)) = []
  /\ details (log_data (session (state_after (log_detail "7") w1)))
     = [("headache", [Detail q "7"])].
Proof.
  cbv zeta. repeat split.
Qed.

(** ** The last turn *)

(** C6. In the detail stage, the turn that receives the answer to the
    last queued question (nothing is left to ask) goes through Summary to
    Done within the turn: the model gets the summary prompt and then the
    advice prompt, and the chat gets the summary section, then the advice
    section, then the closing message. *)
Theorem last_answer_summarises_then_advises
        (gemini : list string -> string -> reply) (w : world) (text : string) :
  stage (session w) = collecting_details ->
  symptoms_to_query (session w) = [] ->
  PyStr.truthy text = true ->
  check_for_critical_symptoms text = false ->
  (user_input (session w) = Some text ->
   let l := log_data (session (state_after (log_detail text) w)) in
   let s := advisor_text (gemini (prompts w) (summary_prompt l)) in
   let a := advisor_text (gemini (prompts w ++ [summary_prompt l])%list (advice_prompt l)) in
   let w' := state_after (handle_chat_input gemini) w in
   raised (handle_chat_input gemini) w = None
   /\ stage (session w') = done
   /\ messages (session w')
      = (messages (session w)
         ++ [ Message assistant (summary_header ++ PyStr.nl ++ s);
              Message assistant (advice_header ++ PyStr.nl ++ a);
              Message assistant closing_message ])%list
   /\ prompts w' = (prompts w ++ [summary_prompt l; advice_prompt l])%list)
  /\ (let l := log_data (session w) in
      let s := advisor_text (gemini (prompts w) (summary_prompt l)) in
      let a := advisor_text (gemini (prompts w ++ [summary_prompt l])%list (advice_prompt l)) in
      let w' := state_after (script_run gemini (chat_input text)) w in
      raised (script_run gemini (chat_input text)) w = None
      /\ stage (session w') = done
      /\ messages (session w')
         = (messages (session w)
            ++ [ Message user text;
                 Message assistant (summary_header ++ PyStr.nl ++ s);
                 Message assistant (advice_header ++ PyStr.nl ++ a);
                 Message assistant closing_message ])%list
      /\ prompts w' = (prompts w ++ [summary_prompt l; advice_prompt l])%list).
Proof.
  intros Hst Hq Ht Hcrit. split.
  - intros Hin. cbv zeta. unfold raised. rewrite handle_chat_input_returns.
    assert (E : state_after (handle_chat_input gemini) w
                = summarised gemini (state_after (log_detail text) w)).
    { unfold state_after at 1.
      rewrite (handle_chat_input_collecting gemini w text) by assumption.
      now rewrite Hq. }
    rewrite E. unfold summarised, state_after. rewrite log_detail_run.
    destruct w as [[msgs stg lg queue ui] [[sy qn]|] sent pg]; repeat split; reflexivity.
  - cbv zeta. unfold raised. rewrite script_run_returns.
    unfold state_after.
    rewrite script_run_chat_input by (assumption || congruence). cbn [snd].
    unfold state_after.
    rewrite (handle_chat_input_collecting gemini (entered text w) text);
      [| reflexivity | assumption | assumption | exact Hst].
    unfold state_after. rewrite log_detail_without_context by reflexivity.
    destruct w as [[msgs stg lg queue ui] ctx sent pg].
    cbn in Hq. subst queue. cbn -[summary_prompt advice_prompt String.append].
    rewrite <- app_assoc. repeat split; reflexivity.
Qed.

(** The whole headache conversation: two questions, two answers, and the
    last answer brings the two sections and the closing message. *)
Lemma last_answer_summarises_then_advises_witness :
  let w := state_after (script_runs gemini_ok
             [chat_input "I have a headache"; chat_input "7"]) new_world in
  let w' := state_after (script_run gemini_ok (chat_input "Behind the eyes")) w in
  stage (session w) = collecting_details
  /\ symptoms_to_query (session w) = []
  /\ stage (session w') = done
  /\ skipn 5 (messages (session w'))
     = [ Message user "Behind the eyes";
         Message assistant (summary_header ++ PyStr.nl ++ "- noted");
         Message assistant (advice_header ++ PyStr.nl ++ "- noted");
         Message assistant closing_message ].
Proof.
  cbv zeta. split; [reflexivity | split; [reflexivity |]].
  destruct (last_answer_summarises_then_advises gemini_ok
              (state_after (script_runs gemini_ok
                 [chat_input "I have a headache"; chat_input "7"]) new_world)
              "Behind the eyes" eq_refl eq_refl eq_refl eq_refl)
    as (_ & _ & Hdone & Hmsgs & _).
  split; [exact Hdone |]. rewrite Hmsgs. reflexivity.
Defined.

(** ** The advice request *)

(** C7. The prompt of the advice request is a function of the initial
    symptom list: two sessions with the same list and any details send
    the same prompt, and with the same earlier prompts get the same
    advice. *)
Theorem advice_prompt_ignores_details
        (gemini : list string -> string -> reply) (w1 w2 : world) :
  initial_symptoms (log_data (session w1)) = initial_symptoms (log_data (session w2)) ->
  advice_prompt (log_data (session w1)) = advice_prompt (log_data (session w2))
  /\ prompts (state_after (generate_advice gemini) w1)
     = (prompts w1 ++ [advice_prompt (log_data (session w1))])%list
  /\ prompts (state_after (generate_advice gemini) w2)
     = (prompts w2 ++ [advice_prompt (log_data (session w1))])%list
  /\ (prompts w1 = prompts w2 ->
      value_of (generate_advice gemini) w1 = value_of (generate_advice gemini) w2).
Proof.
  intros Hsym.
  assert (Hp : advice_prompt (log_data (session w1)) = advice_prompt (log_data (session w2)))
    by (unfold advice_prompt; now rewrite Hsym).
  unfold state_after, value_of. rewrite !generate_advice_run, !_call_gemini_run.
  cbn [fst snd prompts]. rewrite <- Hp.
  repeat split. intros ->. reflexivity.
Qed.

(** Two logs of a headache whose answers differ: the summary prompts
    differ, the advice prompts are one. *)
Lemma advice_prompt_ignores_details_witness :
  let q := "On a scale of 1 to 10, how severe is it?" in
  let w a := World (SessionState [] collecting_details
                      (HealthLog ["headache"] [("headache", [Detail q a])]) [] None)
                   None [] [] in
  summary_prompt (log_data (session (w "9"))) <> summary_prompt (log_data (session (w "2")))
  /\ prompts (state_after (generate_advice gemini_ok) (w "9"))
     = prompts (state_after (generate_advice gemini_ok) (w "2")).
Proof.
  cbv zeta. split; [discriminate |].
  destruct (advice_prompt_ignores_details gemini_ok
    (World (SessionState [] collecting_details
              (HealthLog ["headache"]
                 [("headache", [Detail "On a scale of 1 to 10, how severe is it?" "9"])]) [] None)
           None [] [])
    (World (SessionState [] collecting_details
              (HealthLog ["headache"]
                 [("headache", [Detail "On a scale of 1 to 10, how severe is it?" "2"])]) [] None)
           None [] [])
    eq_refl) as (_ & H1 & H2 & _).
  rewrite H1, H2. reflexivity.
Defined.

(** ** Whole conversations *)

Section Conversation.

Variable gemini : list string -> string -> reply.

Lemma script_runs_cons (i : interaction) (l : list interaction) (w : world) :
  script_runs gemini (i :: l) w
  = script_runs gemini l (state_after (script_run gemini i) w).
Proof.
  cbn [script_runs]. unfold bind, state_after.
  pose proof (script_run_returns gemini i w) as H.
  destruct (script_run gemini i w) as [r w']. cbn in H. now subst r.
Qed.

(** A detail turn with a question left asks it and stays in the stage. *)
Lemma script_run_asks_next (w : world) (text : string) sq r :
  stage (session w) = collecting_details ->
  symptoms_to_query (session w) = sq :: r ->
  PyStr.truthy (snd sq) = true ->
  ordinary text ->
  script_run gemini (chat_input text) w
  = (inr tt,
     said (snd sq)
       (set_context (Some sq) (with_session (set_symptoms_to_query r) (entered text w)))).
Proof.
  intros Hst Hq Hsq [Ht Hcrit].
  rewrite script_run_chat_input by (assumption || congruence).
  unfold state_after.
  rewrite (handle_chat_input_collecting gemini (entered text w) text);
    [| reflexivity | assumption | assumption | exact Hst].
  unfold state_after. rewrite log_detail_without_context by reflexivity.
  cbn [snd entered session symptoms_to_query]. rewrite Hq. cbv zeta. now rewrite Hsq.
Qed.

(** A detail turn with nothing left to ask summarises. *)
Lemma script_run_summarises (w : world) (text : string) :
  stage (session w) = collecting_details ->
  symptoms_to_query (session w) = [] ->
  ordinary text ->
  script_run gemini (chat_input text) w = (inr tt, summarised gemini (entered text w)).
Proof.
  intros Hst Hq [Ht Hcrit].
  rewrite script_run_chat_input by (assumption || congruence).
  unfold state_after.
  rewrite (handle_chat_input_collecting gemini (entered text w) text);
    [| reflexivity | assumption | assumption | exact Hst].
  unfold state_after. rewrite log_detail_without_context by reflexivity.
  cbn [snd entered session symptoms_to_query]. now rewrite Hq.
Qed.

(** From the detail stage, one answer per question still queued and one
    more for the question pending: the stage is CollectingDetails after
    every answer but the last, and Done after the last. *)
Lemma detail_turns_count_down (answers : list string) :
  forall w,
    stage (session w) = collecting_details ->
    well_queued (symptoms_to_query (session w)) ->
    Forall ordinary answers ->
    length answers = S (length (symptoms_to_query (session w))) ->
    stage (session (state_after (script_runs gemini (map chat_input answers)) w)) = done
    /\ (forall k, k < length answers ->
          stage (session (state_after
                   (script_runs gemini (map chat_input (firstn k answers))) w))
          = collecting_details).
Proof.
  induction answers as [|a answers IH]; intros w Hst Hwq Hans Hlen; [discriminate Hlen |].
  inversion Hans as [|? ? Ha Hrest]; subst.
  cbn [map]. unfold state_after at 1. rewrite script_runs_cons.
  destruct (symptoms_to_query (session w)) as [|sq r] eqn:Hq.
  - destruct answers; [| discriminate Hlen].
    unfold state_after. rewrite script_run_summarises by assumption.
    split; [reflexivity |].
    intros [|k] Hk; [exact Hst | cbn in Hk; lia].
  - inversion Hwq as [|? ? Hsq Hr]; subst.
    pose proof (script_run_asks_next w a sq r Hst Hq Hsq Ha) as Hrun.
    assert (Hw1 : state_after (script_run gemini (chat_input a)) w
                  = said (snd sq)
                      (set_context (Some sq)
                         (with_session (set_symptoms_to_query r) (entered a w))))
      by (unfold state_after; now rewrite Hrun).
    destruct (IH (state_after (script_run gemini (chat_input a)) w)) as [Hdone Hbefore].
    + rewrite Hw1. destruct w as [[] ? ? ?]. exact Hst.
    + rewrite Hw1. destruct w as [[] ? ? ?]. exact Hr.
    + exact Hrest.
    + rewrite Hw1. destruct w as [[] ? ? ?]. cbn in Hlen |- *. lia.
    + split; [exact Hdone |].
      intros [|k] Hk; [exact Hst |].
      cbn [firstn map]. unfold state_after at 1. rewrite script_runs_cons.
      apply Hbefore. cbn in Hk. lia.
Qed.

Lemma catalog_well_queued (text : string) :
  well_queued (flatten_questions (detect text)).
Proof.
  unfold well_queued. rewrite detect_cases.
  destruct (PyStr.contains "headache" _), (PyStr.contains "fever" _),
    (PyStr.contains "cough" _); repeat constructor.
Qed.

(** A whole conversation: a first message that names a symptom, then one
    answer per catalog question of the detected symptoms. The session is
    in CollectingDetails until the last answer, whose turn ends it. *)
Lemma conversation_ends_with_last_answer (first : string) (answers : list string) :
  ordinary first ->
  detect first <> [] ->
  Forall ordinary answers ->
  length answers = length (flatten_questions (detect first)) ->
  stage (session (state_after
           (script_runs gemini (chat_input first :: map chat_input answers)) new_world))
  = done
  /\ (forall k, k < length answers ->
        stage (session (state_after
                 (script_runs gemini (chat_input first :: map chat_input (firstn k answers)))
                 new_world))
        = collecting_details).
Proof.
  intros [Ht Hcrit] Hsome Hans Hlen.
  assert (Hrun : state_after (script_run gemini (chat_input first)) new_world
                 = match flatten_questions (detect first) with
                   | [] => new_world
                   | sq :: r =>
                       said (snd sq)
                         (set_context (Some sq)
                            (with_session (fun s =>
                               set_stage collecting_details
                                 (set_symptoms_to_query r
                                    (set_log_data (HealthLog (detect first) []) s)))
                               (entered first new_world)))
                   end).
  { unfold state_after. rewrite script_run_chat_input by (assumption || discriminate).
    unfold state_after.
    rewrite (handle_chat_input_greeting gemini (entered first new_world) first)
      by (assumption || reflexivity).
    cbn [snd]. destruct (flatten_questions (detect first)) eqn:E; [| reflexivity].
    exfalso. apply Hsome. revert E. rewrite detect_cases.
    destruct (PyStr.contains "headache" _), (PyStr.contains "fever" _),
      (PyStr.contains "cough" _); cbn; congruence. }
  pose proof (catalog_well_queued first) as Hwq.
  destruct (flatten_questions (detect first)) as [|sq r] eqn:E.
  { exfalso. apply Hsome. revert E. rewrite detect_cases.
    destruct (PyStr.contains "headache" _), (PyStr.contains "fever" _),
      (PyStr.contains "cough" _); cbn; congruence. }
  inversion Hwq as [|? ? Hsq Hr]; subst.
  destruct (detail_turns_count_down answers
              (state_after (script_run gemini (chat_input first)) new_world))
    as [Hdone Hbefore].
  - now rewrite Hrun.
  - now rewrite Hrun.
  - exact Hans.
  - rewrite Hrun. cbn in Hlen |- *. lia.
  - split.
    + unfold state_after at 1. rewrite script_runs_cons. exact Hdone.
    + intros k Hk. unfold state_after at 1. rewrite script_runs_cons. now apply Hbefore.
Qed.

Lemma script_run_start_new_log (w : world) :
  session (state_after (script_run gemini start_new_log) w) = new_session.
Proof.
  unfold state_after. open_world w.
  unfold script_run. run. rewrite display_history_run. run.
  destruct stg; reflexivity.
Qed.

(** No conversation records an answer: the details of the log are empty
    after any sequence of runs from the start. *)
Lemma details_stay_empty (l : list interaction) :
  forall w,
    details (log_data (session w)) = [] ->
    details (log_data (session (state_after (script_runs gemini l) w))) = [].
Proof.
  induction l as [|i l IH]; intros w Hw; [exact Hw |].
  unfold state_after. rewrite script_runs_cons. apply IH.
  destruct i as [prompt| |].
  - rewrite script_run_keeps_details by discriminate. exact Hw.
  - now rewrite script_run_start_new_log.
  - rewrite script_run_keeps_details by discriminate. exact Hw.
Qed.

End Conversation.

(** * Further properties of the code *)

(** ** The safety filter and the detection, under rewording *)

Lemma string_app_assoc (a b c : string) : (a ++ b) ++ c = a ++ (b ++ c).
Proof. induction a as [|x a IH]; cbn; [reflexivity | now rewrite IH]. Qed.

Lemma Substring_extend (k t a b : string) :
  PyStr.Substring k t -> PyStr.Substring k (a ++ t ++ b).
Proof.
  intros (x & y & ->). exists (a ++ x), (y ++ b).
  now rewrite !string_app_assoc.
Qed.

(** X1. The verdict of the safety filter looks at the lower-cased text
    only: two texts that differ in letter case alone get the same
    verdict. And words added before or after a text that triggers the
    filter never hide the trigger. *)
Theorem check_for_critical_symptoms_stable (text : string) :
  (forall other, PyStr.lower other = PyStr.lower text ->
                 check_for_critical_symptoms other = check_for_critical_symptoms text)
  /\ check_for_critical_symptoms (PyStr.lower text) = check_for_critical_symptoms text
  /\ (forall before after,
        check_for_critical_symptoms text = true ->
        check_for_critical_symptoms (before ++ text ++ after) = true).
Proof.
  split; [| split].
  - intros other H. unfold check_for_critical_symptoms. now rewrite H.
  - unfold check_for_critical_symptoms. now rewrite PyStrFacts.lower_idem.
  - intros a b H. apply check_for_critical_symptoms_true in H.
    destruct H as (k & Hk & Hsub). apply check_for_critical_symptoms_true.
    exists k. split; [exact Hk |].
    rewrite !PyStrFacts.lower_app. now apply Substring_extend.
Qed.

(** Shouting the keyword, and wrapping it in a sentence. *)
Lemma check_for_critical_symptoms_stable_witness :
  check_for_critical_symptoms "NUMBNESS" = check_for_critical_symptoms "numbness"
  /\ check_for_critical_symptoms ("since monday " ++ "numbness" ++ " in my arm") = true.
Proof.
  destruct (check_for_critical_symptoms_stable "numbness") as (Hcase & _ & Hext).
  split; [exact (Hcase "NUMBNESS" eq_refl) | exact (Hext "since monday " " in my arm" eq_refl)].
Defined.

(** X2. Detection looks at the lower-cased text only, and is monotone:
    every symptom detected in a text is detected in any text that
    contains it, so adding words never loses a symptom. *)
Theorem detect_stable (text : string) :
  (forall other, PyStr.lower other = PyStr.lower text -> detect other = detect text)
  /\ (forall before after s,
        In s (detect text) -> In s (detect (before ++ text ++ after)))
  /\ (forall w other,
        PyStr.lower other = PyStr.lower text ->
        log_initial_symptoms other w = log_initial_symptoms text w).
Proof.
  split; [| split].
  - intros other H. unfold detect. now rewrite H.
  - intros a b s Hs. apply detect_In in Hs. destruct Hs as [Hk Hsub].
    apply detect_In. split; [exact Hk |].
    rewrite !PyStrFacts.lower_app. now apply Substring_extend.
  - intros w other H. rewrite !log_initial_symptoms_run.
    assert (E : detect other = detect text) by (unfold detect; now rewrite H).
    now rewrite E.
Qed.

(** A cough in capitals, and a cough in a longer sentence. *)
Lemma detect_stable_witness :
  detect "A Dry COUGH" = detect "a dry cough"
  /\ In "cough" (detect ("Fever, and " ++ "a dry cough" ++ " at night")).
Proof.
  destruct (detect_stable "a dry cough") as (Hcase & Hext & _).
  split; [exact (Hcase "A Dry COUGH" eq_refl) |].
  apply Hext. cbn. now left.
Defined.

(** ** The question queue *)

Lemma flatten_questions_In (detected : list string) (s q : string) :
  In (s, q) (flatten_questions detected) <-> In s detected /\ In q (questions_of s).
Proof.
  unfold flatten_questions. rewrite in_flat_map. split.
  - intros (x & Hx & Hin). apply in_map_iff in Hin.
    destruct Hin as (q' & E & Hq). injection E as -> ->. now split.
  - intros [Hs Hq]. exists s. split; [exact Hs |]. now apply in_map.
Qed.

(** X3. The queue built from a greeting text holds, for every detected
    symptom, exactly its catalog questions and nothing else, each pair
    once: two questions per detected symptom, six at most. *)
Theorem question_queue_is_bounded (text : string) (w : world) :
  let queue := symptoms_to_query (session (state_after (log_initial_symptoms text) w)) in
  (forall s q, In (s, q) queue <-> In s (detect text) /\ In q (questions_of s))
  /\ NoDup queue
  /\ length queue = 2 * length (detect text)
  /\ length (detect text) <= 3
  /\ length queue <= 6
  /\ (queue = [] <-> detect text = []).
Proof.
  cbv zeta. unfold state_after. rewrite log_initial_symptoms_run.
  replace (symptoms_to_query (session (snd (inr tt, _))))
    with (flatten_questions (detect text)) by (destruct w; reflexivity).
  split; [intros s q; apply flatten_questions_In |].
  rewrite detect_cases.
  destruct (PyStr.contains "headache" _), (PyStr.contains "fever" _),
    (PyStr.contains "cough" _); cbn;
    (split; [repeat constructor; cbn; intuition discriminate |]);
    repeat split; try lia; discriminate.
Qed.

(** ** Asking and logging on one agent *)

Lemma ask_and_log_run (answer : string) (w : world) :
  ask_and_log answer w =
    (inr tt,
     match symptoms_to_query (session w) with
     | [] => state_after (log_detail answer) w
     | sq :: r =>
         state_after (log_detail answer)
           (set_context (Some sq) (with_session (set_symptoms_to_query r) w))
     end).
Proof.
  unfold ask_and_log, bind, state_after. rewrite ask_next_question_run.
  destruct (symptoms_to_query (session w)) as [|sq r]; now rewrite log_detail_run.
Qed.

Lemma records_of_set (d : PyDict.t (list detail)) (s s' : string) (v : list detail) :
  records_of (PyDict.set d s v) s' = if String.eqb s s' then v else records_of d s'.
Proof.
  unfold records_of. destruct (String.eqb s s') eqn:E.
  - apply String.eqb_eq in E. subst s'. now rewrite PyDictFacts.get_set_same.
  - apply String.eqb_neq in E. rewrite PyDictFacts.get_set_other; [reflexivity | congruence].
Qed.

(** X4. On one agent, a round of asking and logging per answer files
    every answer under the symptom of the question it answers: after as
    many rounds as there are queued questions the queue is empty, and the
    records of each symptom are the earlier ones followed by its questions
    with their answers, in the order asked. Nothing is raised and the
    symptom list is untouched. *)
Theorem interview_files_every_answer (answers : list string) (w : world) :
  length answers = length (symptoms_to_query (session w)) ->
  let w' := state_after (interview answers) w in
  raised (interview answers) w = None
  /\ symptoms_to_query (session w') = []
  /\ (forall s, records_of (details (log_data (session w'))) s
                = (records_of (details (log_data (session w))) s
                   ++ answered (symptoms_to_query (session w)) answers s)%list)
  /\ initial_symptoms (log_data (session w')) = initial_symptoms (log_data (session w)).
Proof.
  cbv zeta. unfold raised, state_after.
  revert w; induction answers as [|a answers IH]; intros w Hlen.
  - destruct (symptoms_to_query (session w)) eqn:Hq; [| discriminate Hlen].
    cbn. rewrite Hq. repeat split. intros s. unfold answered. cbn. now rewrite app_nil_r.
  - destruct (symptoms_to_query (session w)) as [|[sy qn] r] eqn:Hq; [discriminate Hlen |].
    cbn [interview]. unfold bind. rewrite ask_and_log_run, Hq.
    unfold state_after. rewrite log_detail_run.
    cbn [snd set_context current_question_context].
    match goal with |- context [interview answers ?x] => set (w1 := x) end.
    assert (Hq1 : symptoms_to_query (session w1) = r)
      by (subst w1; destruct w as [[] ? ? ?]; reflexivity).
    assert (Hi1 : initial_symptoms (log_data (session w1))
                  = initial_symptoms (log_data (session w)))
      by (subst w1; destruct w as [[] ? ? ?]; reflexivity).
    assert (Hd1 : forall s, records_of (details (log_data (session w1))) s
                  = if String.eqb sy s
                    then (records_of (details (log_data (session w))) sy ++ [Detail qn a])%list
                    else records_of (details (log_data (session w))) s).
    { intros s. subst w1. destruct w as [[msgs stg lg queue ui] ctx sent pg].
      cbn -[records_of PyDict.set]. apply records_of_set. }
    destruct (IH w1) as (Hr & Hqe & Hrec & Hin).
    { rewrite Hq1. cbn in Hlen. lia. }
    split; [exact Hr | split; [exact Hqe | split; [| now rewrite Hin]]].
    intros s. rewrite Hrec, Hd1, Hq1. unfold answered. cbn [combine filter fst snd map].
    destruct (String.eqb sy s) eqn:E.
    + apply String.eqb_eq in E. subst s. cbn [map fst snd]. now rewrite <- app_assoc.
    + reflexivity.
Qed.

(** A headache and a fever: four questions, four answers, two records
    under each symptom. *)
Lemma interview_files_every_answer_witness :
  let w := state_after (log_initial_symptoms "headache and fever") new_world in
  let w' := state_after (interview ["7"; "Forehead"; "38.5 C"; "Two days"]) w in
  records_of (details (log_data (session w'))) "fever"
  = [ Detail "Have you measured your temperature? If so, what is it?" "38.5 C";
      Detail "How long have you felt feverish?" "Two days" ]
  /\ symptoms_to_query (session w') = [].
Proof.
  cbv zeta.
  destruct (interview_files_every_answer ["7"; "Forehead"; "38.5 C"; "Two days"]
              (state_after (log_initial_symptoms "headache and fever") new_world) eq_refl)
    as (_ & Hq & Hrec & _).
  split; [rewrite Hrec; reflexivity | exact Hq].
Defined.

(** ** The prompts keep their lines *)

Lemma count_char_app (c : ascii) (a b : string) :
  count_char c (a ++ b) = count_char c a + count_char c b.
Proof. induction a as [|x a IH]; cbn; [reflexivity | rewrite IH; lia]. Qed.

Lemma repr_char_one_line (c : ascii) :
  count_char newline (PyStr.repr_char PyStr.squote c) = 0
  /\ count_char newline (PyStr.repr_char PyStr.dquote c) = 0.
Proof.
  destruct c as [[] [] [] [] [] [] [] []]; split; reflexivity.
Qed.

Lemma repr_body_one_line (s : string) :
  count_char newline (PyStr.repr_body PyStr.squote s) = 0
  /\ count_char newline (PyStr.repr_body PyStr.dquote s) = 0.
Proof.
  induction s as [|c s [IH1 IH2]]; [now split |].
  cbn [PyStr.repr_body]. rewrite !count_char_app, IH1, IH2.
  destruct (repr_char_one_line c) as [-> ->]. now split.
Qed.

Lemma repr_one_line (s : string) : count_char newline (PyStr.repr s) = 0.
Proof.
  unfold PyStr.repr. destruct (repr_body_one_line s) as [H1 H2].
  destruct (PyStr.has_char PyStr.squote s && negb (PyStr.has_char PyStr.dquote s));
    cbn [count_char]; rewrite count_char_app; [rewrite H2 | rewrite H1]; reflexivity.
Qed.

Lemma join_one_line (l : list string) :
  Forall (fun s => count_char newline s = 0) l ->
  count_char newline (PyStr.join ", " l) = 0.
Proof.
  induction l as [|x [|y l] IH]; intros H; [reflexivity | |].
  - cbn. now inversion H.
  - inversion H as [|? ? Hx Hr]; subst.
    change (PyStr.join ", " (x :: y :: l)) with (x ++ ", " ++ PyStr.join ", " (y :: l)).
    rewrite !count_char_app, Hx, (IH Hr). reflexivity.
Qed.

Lemma repr_list_one_line {A} (f : A -> string) (l : list A) :
  (forall x, count_char newline (f x) = 0) ->
  count_char newline (PyStr.repr_list f l) = 0.
Proof.
  intros Hf. unfold PyStr.repr_list. rewrite !count_char_app, join_one_line; [reflexivity |].
  apply Forall_forall. intros s Hs. apply in_map_iff in Hs. destruct Hs as (x & <- & _).
  apply Hf.
Qed.

Lemma repr_detail_one_line (r : detail) : count_char newline (repr_detail r) = 0.
Proof.
  unfold repr_detail. rewrite !count_char_app, !repr_one_line. reflexivity.
Qed.

Lemma repr_log_data_one_line (l : health_log) :
  count_char newline (repr_log_data l) = 0.
Proof.
  unfold repr_log_data, PyDict.repr.
  rewrite !count_char_app, (repr_list_one_line PyStr.repr) by apply repr_one_line.
  rewrite join_one_line; [reflexivity |].
  apply Forall_forall. intros s Hs. apply in_map_iff in Hs. destruct Hs as ([k v] & <- & _).
  cbn [fst snd]. rewrite !count_char_app, repr_one_line.
  rewrite (repr_list_one_line repr_detail) by apply repr_detail_one_line. reflexivity.
Qed.

(** X5. Whatever the log holds, the summary prompt and the advice prompt
    have the seven line breaks of their templates: the log and the
    symptom list are written on one line, since [repr] escapes the line
    breaks of an answer. An answer cannot add a line to a prompt. *)
Theorem prompts_keep_their_lines (l : health_log) :
  count_char newline (repr_log_data l) = 0
  /\ count_char newline (summary_prompt l) = 7
  /\ count_char newline (advice_prompt l) = 7.
Proof.
  split; [apply repr_log_data_one_line | split].
  - unfold summary_prompt. rewrite !count_char_app, repr_log_data_one_line. reflexivity.
  - unfold advice_prompt.
    rewrite !count_char_app, (repr_list_one_line PyStr.repr) by apply repr_one_line.
    reflexivity.
Qed.

(** ** The start of a run and the reset *)

(** X6. The start of a run (the agent built, the session initialised)
    leaves a store with all four keys, whatever it found; it changes
    nothing of a session that is already stored, so a rerun keeps the
    conversation; it is idempotent; and from the empty store it makes the
    new session: stage Greeting, the greeting as the one message, an empty
    log and an empty queue. *)
Theorem bootstrap_completes_and_preserves (s : store) :
  (exists ss, loaded (bootstrap s) = Some ss)
  /\ (forall ss, bootstrap (stored ss) = stored ss)
  /\ bootstrap (bootstrap s) = bootstrap s
  /\ loaded (bootstrap empty_store) = Some new_session
  /\ (forall l, k_log_data s = Some l -> k_log_data (bootstrap s) = Some l)
  /\ (forall q, k_symptoms_to_query s = Some q -> k_symptoms_to_query (bootstrap s) = Some q)
  /\ (forall g, k_stage s = Some g ->
                k_stage (bootstrap s) = Some g
                /\ (forall m, k_messages s = Some m -> k_messages (bootstrap s) = Some m)).
Proof.
  destruct s as [[m|] [g|] [l|] [q|] u]; cbn;
    (split; [eexists; reflexivity |]);
    (split; [intros []; reflexivity |]);
    repeat split; intros; congruence.
Qed.

(** X7. Start New Log discards the whole session: deleting every key and
    starting the script again gives the new session whatever was stored,
    and this is the session a run of the script leaves when the button is
    pressed, in every stage; the pending context is gone as well. *)
Theorem start_new_log_discards_the_session
        (gemini : list string -> string -> reply) (w : world) :
  let w' := state_after (script_run gemini start_new_log) w in
  loaded (bootstrap (clear_all (stored (session w)))) = Some new_session
  /\ session w' = new_session
  /\ current_question_context w' = None
  /\ raised (script_run gemini start_new_log) w = None
  /\ (forall l, session (state_after (script_runs gemini (start_new_log :: l)) w)
                = session (state_after (script_runs gemini l)
                             (World new_session None (prompts w)
                                [Drawn (Some assistant) st_markdown greeting_text]))).
Proof.
  cbv zeta.
  assert (E : script_run gemini start_new_log w
              = (inr tt, World new_session None (prompts w)
                           [Drawn (Some assistant) st_markdown greeting_text])).
  { open_world w. unfold script_run. run. rewrite display_history_run. run.
    destruct stg; reflexivity. }
  unfold raised, state_after. rewrite E.
  repeat split. intros l. cbn [script_runs]. unfold bind. now rewrite E.
Qed.

(** ** The turn as a transition relation *)

Section Transitions.

Variable gemini : list string -> string -> reply.

Lemma handle_chat_input_handles (e : world) (text : string) :
  user_input (session e) = Some text ->
  PyStr.truthy text = true ->
  handles gemini text e (state_after (handle_chat_input gemini) e).
Proof.
  intros Hin Ht. unfold state_after.
  destruct (check_for_critical_symptoms text) eqn:Hcrit.
  - rewrite (handle_chat_input_critical gemini e text) by assumption.
    now apply h_escalate.
  - destruct (stage (session e)) eqn:Hst.
    + rewrite (handle_chat_input_greeting gemini e text) by assumption.
      cbn [snd]. cbv zeta.
      destruct (flatten_questions (detect text)) as [|sq r] eqn:E.
      * replace [] with (@nil (string * string)) by reflexivity.
        now apply h_clarify.
      * now apply h_first_question.
    + rewrite (handle_chat_input_collecting gemini e text) by assumption.
      cbn [snd]. cbv zeta.
      destruct (symptoms_to_query (session e)) as [|sq r] eqn:E.
      * now apply h_summary.
      * destruct (PyStr.truthy (snd sq)) eqn:Hsq.
        -- now apply h_next_question.
        -- now apply h_summary_on_blank.
    + rewrite (handle_chat_input_summary gemini e text) by assumption.
      now apply h_silent.
    + rewrite (handle_chat_input_done gemini e text) by assumption.
      now apply h_concluded.
Qed.

Lemma script_run_runs (i : interaction) (w : world) :
  runs gemini w i (state_after (script_run gemini i) w).
Proof.
  destruct i as [prompt| |].
  - destruct (stage (session w)) eqn:Hst.
    4: { unfold state_after. rewrite script_run_done by (assumption || discriminate).
         apply r_redraw; [discriminate | now left]. }
    all: destruct (PyStr.truthy prompt) eqn:Hp;
      [ unfold state_after at 1;
        rewrite script_run_chat_input by (assumption || congruence);
        apply r_turn; [congruence | assumption |];
        now apply handle_chat_input_handles
      | replace (state_after (script_run gemini (chat_input prompt)) w)
          with (set_context None (set_page (history_drawn (messages (session w))) w));
        [ apply r_redraw; [discriminate | right; right; now exists prompt]
        | unfold state_after; open_world w; subst stg; unfold script_run; run;
          rewrite display_history_run; run; rewrite Hp; reflexivity ] ].
  - replace (state_after (script_run gemini start_new_log) w)
      with (World new_session None (prompts w)
              [Drawn (Some assistant) st_markdown greeting_text]);
      [apply r_new_log |].
    unfold state_after. open_world w. unfold script_run. run.
    rewrite display_history_run. run. destruct stg; reflexivity.
  - replace (state_after (script_run gemini idle) w)
      with (set_context None (set_page (history_drawn (messages (session w))) w));
      [apply r_redraw; [discriminate | right; now left] |].
    unfold state_after. open_world w. unfold script_run. run.
    rewrite display_history_run. run. destruct stg; reflexivity.
Qed.

End Transitions.

(** ** What a run can do to the session *)

(** The state after the log step of a turn that the script started: the
    agent is new, so nothing is logged. *)
Lemma log_detail_entered (text prompt : string) (w : world) :
  state_after (log_detail text) (entered prompt w) = entered prompt w.
Proof. unfold state_after. now rewrite log_detail_without_context. Qed.

(** Splits a run of the script into the paths it can take, with the
    world after the run in closed form. *)
Ltac run_cases gemini i w :=
  let H := fresh "Hrun" in
  let Hh := fresh "Hhandles" in
  pose proof (script_run_runs gemini i w) as H;
  remember (state_after (script_run gemini i) w) as w' eqn:Ew; clear Ew;
  inversion H as [ | ? ? ? ? Hh | ]; subst;
  [ | inversion Hh; subst; rewrite ?log_detail_entered | ];
  destruct w as [[msgs stg lg queue ui] ctx sent pg];
  cbn [entered escalated said summarised with_session set_context set_page
       set_messages set_stage set_log_data set_symptoms_to_query
       session current_question_context prompts page
       messages stage log_data symptoms_to_query user_input
       initial_symptoms details new_session] in *.

(** X8. The stage only moves forward: a run of the script, other than
    Start New Log, never takes the session to an earlier stage (Greeting,
    CollectingDetails, Summary, Done in this order), and it leaves the
    session in Summary only if it found it there. *)
Theorem stage_never_goes_back
        (gemini : list string -> string -> reply) (w : world) (i : interaction) :
  i <> start_new_log ->
  let w' := state_after (script_run gemini i) w in
  rank (stage (session w)) <= rank (stage (session w'))
  /\ (stage (session w') = summary -> stage (session w) = summary)
  /\ (stage (session w') = greeting -> stage (session w) = greeting).
Proof.
  intros Hi. cbv zeta. run_cases gemini i w; subst; cbn [rank];
    try congruence;
    (split; [try lia; destruct stg; cbn; lia | split; congruence]).
Qed.

Lemma stage_never_goes_back_witness :
  rank (stage (session new_world))
  <= rank (stage (session
       (state_after (script_run gemini_ok (chat_input "I have a cough")) new_world))).
Proof.
  exact (proj1 (stage_never_goes_back gemini_ok new_world (chat_input "I have a cough")
                  ltac:(discriminate))).
Defined.

(** X9. The model is called in one kind of run only: the run that ends
    the detail stage, which sends the summary prompt and then the advice
    prompt of the log as it stands, and ends in Done. Every other run
    (greeting, clarification, next question, escalation, a concluded
    session, the reset) sends nothing. *)
Theorem model_is_called_twice_or_not_at_all
        (gemini : list string -> string -> reply) (w : world) (i : interaction) :
  let w' := state_after (script_run gemini i) w in
  prompts w' = prompts w
  \/ (stage (session w) = collecting_details
      /\ stage (session w') = done
      /\ prompts w'
         = (prompts w ++ [ summary_prompt (log_data (session w));
                           advice_prompt (log_data (session w)) ])%list).
Proof.
  cbv zeta. run_cases gemini i w; subst;
    (now left) || (right; repeat split).
Qed.

(** X10. The chat history is append-only: a run other than Start New Log
    keeps every earlier message in place and adds at most four. When it
    handles a chat input, the first message added is the user's text as
    typed, and the rest are replies of the assistant: one, or the three of
    the last turn, or none if the run found the stage Summary. *)
Theorem messages_are_append_only
        (gemini : list string -> string -> reply) (w : world) (i : interaction) :
  i <> start_new_log ->
  let w' := state_after (script_run gemini i) w in
  exists added,
    messages (session w') = (messages (session w) ++ added)%list
    /\ length added <= 4
    /\ (forall prompt,
          i = chat_input prompt ->
          stage (session w) <> done ->
          PyStr.truthy prompt = true ->
          exists replies,
            added = Message user prompt :: replies
            /\ Forall (fun m => role m = assistant) replies
            /\ (length replies = 1 \/ length replies = 3
                \/ (replies = [] /\ stage (session w) = summary))).
Proof.
  intros Hi. cbv zeta. run_cases gemini i w; subst; try congruence.
  all: try (rewrite <- ?app_assoc; cbn [app];
            eexists; split; [reflexivity |]; split; [cbn; lia |];
            intros p [= <-] _ _; eexists; split; [reflexivity |];
            split; [repeat constructor | cbn; auto]).
  - exists []. rewrite app_nil_r. split; [reflexivity | split; [cbn; lia |]].
    intros p -> Hst Hp.
    match goal with H : _ \/ _ |- _ => destruct H as [H | [H | (q & [= <-] & H)]] end;
      congruence.
Qed.

Lemma messages_are_append_only_witness :
  exists added,
    messages (session (state_after (script_run gemini_ok (chat_input "hello")) new_world))
    = (messages (session new_world) ++ added)%list
    /\ length added <= 4.
Proof.
  destruct (messages_are_append_only gemini_ok new_world (chat_input "hello")
              ltac:(discriminate)) as (added & H & Hlen & _).
  exists added. now split.
Defined.

(** X11. A concluded session is frozen: once the stage is Done, no run
    of the script other than Start New Log changes anything of the session
    store or calls the model, whatever is typed. *)
Theorem done_session_is_frozen
        (gemini : list string -> string -> reply) (l : list interaction) (w : world) :
  stage (session w) = done ->
  ~ In start_new_log l ->
  session (state_after (script_runs gemini l) w) = session w
  /\ prompts (state_after (script_runs gemini l) w) = prompts w
  /\ raised (script_runs gemini l) w = None.
Proof.
  unfold raised, state_after. revert w; induction l as [|i l IH]; intros w Hst Hl.
  - now repeat split.
  - rewrite script_runs_cons. unfold state_after.
    rewrite script_run_done; [| exact Hst | intros ->; apply Hl; now left].
    cbn [snd].
    destruct (IH (set_context None (set_page (history_drawn (messages (session w))) w)))
      as (Hs & Hp & Hr).
    + exact Hst.
    + intros H. apply Hl. now right.
    + rewrite Hs, Hp, Hr. now destruct w.
Qed.

Lemma done_session_is_frozen_witness :
  let w := state_after (script_run gemini_ok (chat_input "severe bleeding")) new_world in
  session (state_after (script_runs gemini_ok [chat_input "are you there?"; idle]) w)
  = session w.
Proof.
  cbv zeta.
  refine (proj1 (done_session_is_frozen gemini_ok [chat_input "are you there?"; idle]
                   (state_after (script_run gemini_ok (chat_input "severe bleeding")) new_world)
                   eq_refl _)).
  intros [H | [H | []]]; discriminate H.
Defined.

(** X12. Symptoms are detected in the greeting stage only: in any other
    stage a run other than Start New Log leaves the symptom list as it is,
    also when the text names another symptom, and the question queue
    either stays or loses its first question. *)
Theorem symptoms_are_fixed_after_greeting
        (gemini : list string -> string -> reply) (w : world) (i : interaction) :
  stage (session w) <> greeting ->
  i <> start_new_log ->
  let w' := state_after (script_run gemini i) w in
  initial_symptoms (log_data (session w')) = initial_symptoms (log_data (session w))
  /\ (symptoms_to_query (session w') = symptoms_to_query (session w)
      \/ symptoms_to_query (session w') = tl (symptoms_to_query (session w))).
Proof.
  intros Hst Hi. cbv zeta. run_cases gemini i w; subst; try congruence;
    (split; [reflexivity |]); (now left) || (now right).
Qed.

(** In the detail stage, an answer that mentions a cough adds no
    cough to the symptoms. *)
Lemma symptoms_are_fixed_after_greeting_witness :
  let w := state_after (script_run gemini_ok (chat_input "I have a headache")) new_world in
  initial_symptoms (log_data (session
    (state_after (script_run gemini_ok (chat_input "7, and a cough too")) w)))
  = ["headache"].
Proof.
  cbv zeta.
  rewrite (proj1 (symptoms_are_fixed_after_greeting gemini_ok
             (state_after (script_run gemini_ok (chat_input "I have a headache")) new_world)
             (chat_input "7, and a cough too") ltac:(discriminate) ltac:(discriminate))).
  reflexivity.
Defined.

(** ** What holds throughout a conversation *)

Lemma flatten_questions_length (text : string) :
  length (flatten_questions (detect text)) = 2 * length (detect text)
  /\ length (detect text) <= 3
  /\ (flatten_questions (detect text) = [] -> detect text = []).
Proof.
  rewrite detect_cases.
  destruct (PyStr.contains "headache" _), (PyStr.contains "fever" _),
    (PyStr.contains "cough" _); cbn; repeat split; try lia; discriminate.
Qed.

Lemma script_run_consistent
      (gemini : list string -> string -> reply) (i : interaction) (w : world) :
  consistent (session w) ->
  consistent (session (state_after (script_run gemini i) w)).
Proof.
  unfold consistent. intros (Hsum & Hgreet & Hcoll & Htext & Hasked).
  run_cases gemini i w; subst; try congruence.
  - (* the reset *)
    repeat split; try discriminate; [now exists "" | now exists []].
  - (* escalation *)
    repeat split; try discriminate; assumption.
  - (* clarification *)
    match goal with H : flatten_questions _ = [] |- _ =>
      pose proof (proj2 (proj2 (flatten_questions_length _)) H) as Hnil end.
    rewrite Hnil.
    repeat split; try discriminate; [now exists "" | now exists []].
  - (* first question *)
    match goal with H : flatten_questions _ = ?sq :: ?r |- _ =>
      repeat split; try discriminate;
      [ intros _ E; rewrite E in H; discriminate H
      | now eexists
      | exists [sq]; exact H ] end.
  - (* next question *)
    destruct Hasked as [asked Ha].
    repeat split; try discriminate; try assumption.
    match goal with |- exists _, _ = (_ ++ ?r)%list =>
      match type of Ha with _ = (_ ++ ?sq :: r)%list =>
        exists (asked ++ [sq])%list; rewrite <- app_assoc; exact Ha end end.
  - (* summary *)
    repeat split; try discriminate; assumption.
  - (* summary, on a blank question *)
    destruct Hasked as [asked Ha].
    repeat split; try discriminate; try assumption.
    match goal with |- exists _, _ = (_ ++ ?r)%list =>
      match type of Ha with _ = (_ ++ ?sq :: r)%list =>
        exists (asked ++ [sq])%list; rewrite <- app_assoc; exact Ha end end.
  - (* redraw *)
    repeat (split; [assumption |]); assumption.
Qed.

(** X13. After every run of every conversation (resets included) the
    session is consistent: the stage is never Summary, which a turn enters
    and leaves at once; in Greeting nothing is queued and no symptom is
    recorded; in CollectingDetails some symptom is recorded; the recorded
    symptoms are the detection of some text; and the queue is what is left
    to ask of the questions of the recorded symptoms. *)
Theorem session_stays_consistent
        (gemini : list string -> string -> reply) (l : list interaction) :
  consistent (session (state_after (script_runs gemini l) new_world))
  /\ (forall w, consistent (session w) ->
                consistent (session (state_after (script_runs gemini l) w))).
Proof.
  assert (H : forall w, consistent (session w) ->
                        consistent (session (state_after (script_runs gemini l) w))).
  { induction l as [|i l IH]; intros w Hw; [exact Hw |].
    unfold state_after. rewrite script_runs_cons. apply IH.
    now apply script_run_consistent. }
  split; [| exact H].
  apply H. unfold consistent. cbn.
  repeat split; try discriminate; [now exists "" | now exists []].
Qed.

Lemma catalog_questions_not_concluded (text : string) :
  Forall (fun sq => snd sq <> concluded_message) (flatten_questions (detect text)).
Proof.
  rewrite detect_cases.
  destruct (PyStr.contains "headache" _), (PyStr.contains "fever" _),
    (PyStr.contains "cough" _); repeat constructor; discriminate.
Qed.

(** Closes a goal that a message of the assistant is the concluded
    message, when its text starts otherwise. *)
Ltac not_concluded :=
  match goal with
  | H : Message _ _ = Message _ _ |- _ =>
      first [ discriminate H
            | injection H as H; first [discriminate H | vm_compute in H; discriminate H] ]
  end.

Lemma not_said_app (c : message) (old added : list message) :
  ~ In c old -> ~ In c added -> ~ In c (old ++ added).
Proof. intros H1 H2 H. apply in_app_or in H. tauto. Qed.

(** Closes a goal that none of the listed new messages is the concluded
    message. *)
Ltac none_concluded :=
  cbn [In]; intros Hin;
  repeat match goal with
         | H : _ \/ _ |- _ => destruct H
         | H : False |- _ => destruct H
         end; not_concluded.

Lemma script_run_never_concluded
      (gemini : list string -> string -> reply) (i : interaction) (w : world) :
  never_concluded (session w) ->
  never_concluded (session (state_after (script_run gemini i) w)).
Proof.
  unfold never_concluded. intros [Hm Hq].
  run_cases gemini i w; subst; try congruence;
    rewrite <- ?app_assoc; cbn [app].
  - (* the reset *)
    split; [none_concluded | constructor].
  - (* escalation *)
    split; [apply not_said_app; [exact Hm | none_concluded] | exact Hq].
  - (* clarification *)
    split; [apply not_said_app; [exact Hm | none_concluded] | constructor].
  - (* first question *)
    match goal with H : flatten_questions (detect ?t) = _ |- _ =>
      pose proof (catalog_questions_not_concluded t) as Hc; rewrite H in Hc end.
    inversion Hc as [|? ? Hsq Hr]; subst.
    split; [apply not_said_app; [exact Hm |] | exact Hr].
    cbn [In]. intros [E | [E | []]]; [discriminate E | injection E as E; now apply Hsq].
  - (* next question *)
    inversion Hq as [|? ? Hsq Hr]; subst.
    split; [apply not_said_app; [exact Hm |] | exact Hr].
    cbn [In]. intros [E | [E | []]]; [discriminate E | injection E as E; now apply Hsq].
  - (* summary *)
    split; [apply not_said_app; [exact Hm | none_concluded] | exact Hq].
  - (* summary, on a blank question *)
    inversion Hq as [|? ? Hsq Hr]; subst.
    split; [apply not_said_app; [exact Hm | none_concluded] | exact Hr].
  - (* a run that found the stage Summary *)
    split; [apply not_said_app; [exact Hm | none_concluded] | exact Hq].
  - (* redraw *)
    now split.
Qed.

(** X14. The reply "This session has concluded" is never given: in no
    conversation, with whatever inputs, replies of the model and resets,
    does the assistant say it, since the script offers no chat input once
    the stage is Done. *)
Theorem concluded_message_is_never_said
        (gemini : list string -> string -> reply) (l : list interaction) :
  ~ In (Message assistant concluded_message)
       (messages (session (state_after (script_runs gemini l) new_world)))
  /\ (forall w, stage (session w) = done ->
                forall prompt,
                  messages (session (state_after (script_run gemini (chat_input prompt)) w))
                  = messages (session w)).
Proof.
  split.
  - assert (H : forall w, never_concluded (session w) ->
                          never_concluded (session (state_after (script_runs gemini l) w))).
    { induction l as [|i l IH]; intros w Hw; [exact Hw |].
      unfold state_after. rewrite script_runs_cons. apply IH.
      now apply script_run_never_concluded. }
    apply (H new_world). split; [| constructor].
    cbn. intros [E | []]. discriminate E.
  - intros w Hst prompt. unfold state_after.
    rewrite script_run_done by (assumption || discriminate). now destruct w.
Qed.

(** ** The length of a conversation *)

(** X15. A conversation takes two answers per detected symptom: after a
    first message that names n symptoms and is not critical, the session
    is in CollectingDetails after each of the first 2n-1 ordinary answers
    and Done after the 2n-th; n is at most three, so six answers at
    most. *)
Theorem conversation_takes_two_answers_per_symptom
        (gemini : list string -> string -> reply) (first : string) (answers : list string) :
  ordinary first ->
  detect first <> [] ->
  Forall ordinary answers ->
  length answers = 2 * length (detect first) ->
  stage (session (state_after
           (script_runs gemini (chat_input first :: map chat_input answers)) new_world))
  = done
  /\ (forall k, k < length answers ->
        stage (session (state_after
                 (script_runs gemini (chat_input first :: map chat_input (firstn k answers)))
                 new_world))
        = collecting_details)
  /\ 2 <= length answers <= 6.
Proof.
  intros Hfirst Hsome Hans Hlen.
  destruct (flatten_questions_length first) as (Hq & Hmax & _).
  destruct (conversation_ends_with_last_answer gemini first answers Hfirst Hsome Hans)
    as [Hdone Hbefore]; [lia |].
  split; [exact Hdone | split; [exact Hbefore |]].
  destruct (detect first); [congruence | cbn in *; lia].
Qed.

Lemma conversation_takes_two_answers_per_symptom_witness :
  stage (session (state_after
    (script_runs gemini_ok
       (chat_input "A fever" :: map chat_input ["38.5 C"; "Since yesterday"])) new_world))
  = done.
Proof.
  refine (proj1 (conversation_takes_two_answers_per_symptom gemini_ok "A fever"
                   ["38.5 C"; "Since yesterday"] _ _ _ eq_refl)).
  - split; reflexivity.
  - discriminate.
  - repeat constructor.
Defined.

(** ** The transition relation is the script *)



(** ** The page *)

(** X17. What is drawn is what is stored: after a run that does not end
    the session (and after any run in a session that had ended before),
    the page shows the chat history of the session, one bubble per
    message, in order, each as markdown under its role, and nothing
    else. *)
Theorem page_shows_the_history
        (gemini : list string -> string -> reply) (w : world) (i : interaction) :
  let w' := state_after (script_run gemini i) w in
  stage (session w') <> done \/ stage (session w) = done ->
  page w' = history_drawn (messages (session w')).
Proof.
  cbv zeta. intros Hst. unfold history_drawn.
  run_cases gemini i w; subst; try (destruct Hst; congruence);
    rewrite <- ?app_assoc; cbn [app]; rewrite ?map_app; reflexivity.
Qed.

Lemma page_shows_the_history_witness :
  let w' := state_after (script_run gemini_ok (chat_input "I have a cough")) new_world in
  page w' = history_drawn (messages (session w')).
Proof.
  cbv zeta.
  apply (page_shows_the_history gemini_ok new_world (chat_input "I have a cough")).
  left. discriminate.
Defined.
